(** * Marks-entry row calculator ([calculateRow], main.js)

    A shallow embedding of the teacher module's [calculateRow] function:
    the six raw input strings of a marks-entry row are read with
    [parseInt(...) || 0], validated, and the derived total, final mark,
    grade and risk are written back into the row's display elements.

    JavaScript Numbers are IEEE-754 binary64 values; they are modelled with
    the Standard Library's [spec_float] and its [SF*] operations at
    precision 53 and exponent bound 1024.  Strings are sequences of code
    units below 256. *)

From Stdlib Require Import ZArith List String Ascii Bool Lia.
From Stdlib Require Import Floats.SpecFloat.
From stdpp Require Import gmap strings.

Local Open Scope string_scope.
Local Open Scope Z_scope.

(** ** JavaScript Numbers *)

Module Num.

Definition number := spec_float.

Definition prec : Z := 53.
Definition emax : Z := 1024.

Definition NaN : number := S754_nan.
Definition pzero : number := S754_zero false.

Definition add (x y : number) : number := SFadd prec emax x y.
Definition mul (x y : number) : number := SFmul prec emax x y.
Definition div (x y : number) : number := SFdiv prec emax x y.

(** [x < y], [x > y], [x >= y] and [x == y] on Numbers: any comparison
    with NaN is false, and the two zeros compare equal. *)
Definition lt (x y : number) : bool := SFltb x y.
Definition gt (x y : number) : bool := SFltb y x.
Definition ge (x y : number) : bool := SFleb y x.
Definition le (x y : number) : bool := SFleb x y.
Definition eq (x y : number) : bool := SFeqb x y.

(** The Number value of a mathematical integer (round to nearest, ties
    to even; overflow gives an infinity). *)
Definition of_Z (n : Z) : number := binary_normalize prec emax n 0 false.

(** [ToBoolean] on Numbers: NaN and both zeros are falsy. *)
Definition truthy (x : number) : bool :=
  match x with
  | S754_nan | S754_zero _ => false
  | _ => true
  end.

(** [x || 0] for a Number [x]. *)
Definition or_zero (x : number) : number :=
  if truthy x then x else pzero.

(** [Math.round]: the integer nearest to [x], ties towards +Infinity;
    NaN, infinities and zeros are returned unchanged, and a result of
    zero keeps the sign of [x]. *)
Definition round (x : number) : number :=
  match x with
  | S754_finite s m e =>
      if 0 <=? e then x
      else
        let d := Z.pow 2 (- e) in
        let v := if s then Z.neg m else Z.pos m in
        binary_normalize prec emax ((2 * v + d) / (2 * d)) 0 s
  | _ => x
  end.

End Num.

(** ** Reading an integer from an input's value *)

Module Parse.

Import Num.

(** White space skipped by [parseInt] (the code units below 256 of
    ECMAScript's [StrWhiteSpaceChar]): TAB, LF, VT, FF, CR, SP and NBSP. *)
Definition is_space (c : ascii) : bool :=
  let n := N_of_ascii c in
  ((9 <=? n) && (n <=? 13) || (n =? 32) || (n =? 160))%N.

Fixpoint skip_space (s : string) : string :=
  match s with
  | String c s' => if is_space c then skip_space s' else s
  | EmptyString => s
  end.

(** The value of a digit character in the given radix, if it is one. *)
Definition digit_value (radix : Z) (c : ascii) : option Z :=
  let n := Z.of_N (N_of_ascii c) in
  let v :=
    if (48 <=? n) && (n <=? 57) then n - 48
    else if (97 <=? n) && (n <=? 122) then n - 87
    else if (65 <=? n) && (n <=? 90) then n - 55
    else radix in
  if v <? radix then Some v else None.

(** The longest prefix of radix digits, as a mathematical integer;
    [None] when the prefix is empty. *)
Fixpoint read_digits (radix : Z) (s : string) (acc : option Z) : option Z :=
  match s with
  | String c s' =>
      match digit_value radix c with
      | Some d =>
          read_digits radix s'
            (Some (match acc with Some a => a * radix + d | None => d end))
      | None => acc
      end
  | EmptyString => acc
  end.

Definition strip_sign (s : string) : bool * string :=
  match s with
  | String "-" s' => (true, s')
  | String "+" s' => (false, s')
  | _ => (false, s)
  end.

Definition strip_prefix (s : string) : Z * string :=
  match s with
  | String "0" (String "x" s') => (16, s')
  | String "0" (String "X" s') => (16, s')
  | _ => (10, s)
  end.

(** The sign and magnitude that [parseInt(s)] reads, [None] when it reads
    no digit. *)
Definition scan (s : string) : option (bool * Z) :=
  let (neg, s1) := strip_sign (skip_space s) in
  let (radix, s2) := strip_prefix s1 in
  match read_digits radix s2 None with
  | Some m => Some (neg, m)
  | None => None
  end.

(** [parseInt(s)] with no radix argument.  The digits read are taken as
    the exact integer and rounded to the nearest Number. *)
Definition parseInt (s : string) : number :=
  match scan s with
  | None => NaN
  | Some (neg, 0) => S754_zero neg
  | Some (neg, m) => of_Z (if neg then - m else m)
  end.

(** [parseInt(s) || 0], the way every field of the row is read. *)
Definition read_field (s : string) : number := or_zero (parseInt s).

End Parse.

(** ** Number to string conversion ([Number::toString], radix 10) *)

Module ToString.

Import Num.

Fixpoint digits_acc (fuel : nat) (n : Z) (acc : string) : string :=
  match fuel with
  | O => acc
  | S f =>
      let acc' := String (ascii_of_N (Z.to_N (48 + n mod 10))) acc in
      if n <? 10 then acc' else digits_acc f (n / 10) acc'
  end.

(** The decimal digits of a non-negative integer. *)
Definition decimal (n : Z) : string :=
  digits_acc (S (Z.to_nat (Z.log2 n))) n "".

Fixpoint zeros (n : nat) : string :=
  match n with
  | O => ""
  | S k => String "0" (zeros k)
  end.

(** The Number nearest to the positive rational [p / q]. *)
Definition of_ratio (p q : Z) : number :=
  let '(mz, ez, lz) := SFdiv_core_binary prec emax p 0 q 0 in
  binary_round_aux prec emax false mz ez lz.

(** The Number nearest to [s * 10 ^ sc]. *)
Definition of_scaled (s sc : Z) : number :=
  if 0 <=? sc then of_ratio (s * 10 ^ sc) 1 else of_ratio s (10 ^ (- sc)).

Definition sf_eqb (x y : number) : bool :=
  match x, y with
  | S754_zero a, S754_zero b => Bool.eqb a b
  | S754_infinity a, S754_infinity b => Bool.eqb a b
  | S754_nan, S754_nan => true
  | S754_finite a m e, S754_finite b m' e' =>
      Bool.eqb a b && (m =? m')%positive && (e =? e')
  | _, _ => false
  end.

(** The least [n >= n0] with [p / q < 10 ^ n]. *)
Fixpoint dec_exp_from (fuel : nat) (p q n0 : Z) : Z :=
  match fuel with
  | O => n0
  | S f =>
      let below :=
        if 0 <=? n0 then p <? q * 10 ^ n0 else p * 10 ^ (- n0) <? q in
      if below then n0 else dec_exp_from f p q (n0 + 1)
  end.

(** [n] with [10 ^ (n - 1) <= p / q < 10 ^ n]. *)
Definition dec_exp (p q : Z) : Z :=
  let b := Z.log2 p - Z.log2 q in
  dec_exp_from 8 p q ((b - 1) * 30103 / 100000 - 2).

(** The shortest digit string [s] (with [k] digits, [k] counted up from
    [17 - fuel + 1]) for which [s * 10 ^ (n - k)] reads back as [x];
    among two candidates of the same length the one nearer to [p / q]
    wins, the even one on a tie. *)
Fixpoint shortest (fuel : nat) (x : number) (p q n k : Z) : Z * Z :=
  match fuel with
  | O => (0, k)
  | S f =>
      let sc := n - k in
      let lo := if 0 <=? sc then p / (q * 10 ^ sc) else p * 10 ^ (- sc) / q in
      let hi := lo + 1 in
      let ok_lo := sf_eqb (of_scaled lo sc) x in
      let ok_hi := sf_eqb (of_scaled hi sc) x in
      (* twice the distance of [p / q] from [lo], in units of
         [10 ^ sc / q'], against one unit *)
      let rem2 :=
        if 0 <=? sc then 2 * (p - lo * q * 10 ^ sc) ?= q * 10 ^ sc
        else 2 * (p * 10 ^ (- sc) - lo * q) ?= q in
      let prefer_lo :=
        match rem2 with
        | Lt => true
        | Gt => false
        | Eq => Z.even lo
        end in
      if ok_lo && ok_hi then (if prefer_lo then lo else hi, k)
      else if ok_lo then (lo, k)
      else if ok_hi then (hi, k)
      else shortest f x p q n (k + 1)
  end.

Definition take (n : Z) (s : string) : string := substring 0 (Z.to_nat n) s.
Definition drop (n : Z) (s : string) : string :=
  substring (Z.to_nat n) (String.length s - Z.to_nat n) s.

(** The text of a positive finite Number whose value is [p / q]. *)
Definition show_positive (x : number) (p q : Z) : string :=
  let n0 := dec_exp p q in
  let '(s0, k0) := shortest 17 x p q n0 1 in
  (* a candidate [10 ^ k] is the single digit 1 one place higher *)
  let '(s, k, n) :=
    if s0 =? 10 ^ k0 then (1, 1, n0 + 1) else (s0, k0, n0) in
  let ds := decimal s in
  if (k <=? n) && (n <=? 21) then ds ++ zeros (Z.to_nat (n - k))
  else if (0 <? n) && (n <=? 21) then take n ds ++ "." ++ drop n ds
  else if (-6 <? n) && (n <=? 0) then "0." ++ zeros (Z.to_nat (- n)) ++ ds
  else
    let ex := (if 0 <=? n - 1 then "+" else "-") ++ decimal (Z.abs (n - 1)) in
    if k =? 1 then ds ++ "e" ++ ex
    else take 1 ds ++ "." ++ drop 1 ds ++ "e" ++ ex.

(** [String(x)] for a Number [x], as assigning it to [textContent] or to
    an input's [value] does. *)
Definition to_string (x : number) : string :=
  match x with
  | S754_nan => "NaN"
  | S754_zero _ => "0"
  | S754_infinity s => if s then "-Infinity" else "Infinity"
  | S754_finite s m e =>
      let p := if 0 <=? e then Z.pos m * 2 ^ e else Z.pos m in
      let q := if 0 <=? e then 1 else 2 ^ (- e) in
      (if s then "-" else "") ++
      show_positive (S754_finite false m e) p q
  end.

End ToString.

(** ** The marks-entry page *)

Module Dom.

(** An [<input>] element: its current [value] and its [classList]. *)
Record input := { value : string; classList : list string }.

(** [classList.add(c)]: appends the token unless it is already there. *)
Definition class_add (c : string) (el : input) : input :=
  {| value := value el;
     classList :=
       if existsb (String.eqb c) (classList el) then classList el
       else classList el ++ [c] |}.

(** [classList.remove(c)]: drops every occurrence of the token. *)
Definition class_remove (c : string) (el : input) : input :=
  {| value := value el;
     classList := List.filter (fun t => negb (String.eqb c t)) (classList el) |}.

Definition has_class (c : string) (el : input) : bool :=
  existsb (String.eqb c) (classList el).

(** Modelled from the spec: the markup of the marks-entry page is not part
    of the scripts; following the spec's table of external interfaces,
    the row of one student carries six inputs, found by name inside
    [row-ID], and five output elements [total-ID], [final-ID],
    [final-calc-ID], [grade-ID] and [risk-ID]. *)
Record row := {
  total_classes : input;
  attended_classes : input;
  internal1 : input;
  internal2 : input;
  assignment : input;
  seminar : input;
  total_text : string;        (* textContent of total-ID *)
  final_text : string;        (* textContent of final-ID *)
  final_calc : string;        (* value of the hidden final-calc-ID *)
  grade_html : string;        (* innerHTML of grade-ID *)
  risk_html : string          (* innerHTML of risk-ID *)
}.

(** The document: the rows of the page by student id. *)
Abbreviation document := (gmap string row).

End Dom.

(** ** calculateRow *)

Module Calc.

Import Num Parse ToString Dom.

(** The six Numbers read from a row. *)
Record fields := {
  f_total_classes : number;
  f_attended : number;
  f_i1 : number;
  f_i2 : number;
  f_assign : number;
  f_sem : number
}.

Definition read_fields (r : row) : fields :=
  {| f_total_classes := read_field (value (total_classes r));
     f_attended := read_field (value (attended_classes r));
     f_i1 := read_field (value (internal1 r));
     f_i2 := read_field (value (internal2 r));
     f_assign := read_field (value (assignment r));
     f_sem := read_field (value (seminar r)) |}.

(** The conditions of the five range checks, in the order of the code. *)
Definition bad_attended (f : fields) : bool :=
  gt (f_attended f) (f_total_classes f).
Definition bad_i1 (f : fields) : bool :=
  lt (f_i1 f) (of_Z 0) || gt (f_i1 f) (of_Z 70).
Definition bad_i2 (f : fields) : bool :=
  lt (f_i2 f) (of_Z 0) || gt (f_i2 f) (of_Z 70).
Definition bad_assign (f : fields) : bool :=
  lt (f_assign f) (of_Z 0) || gt (f_assign f) (of_Z 10).
Definition bad_sem (f : fields) : bool :=
  lt (f_sem f) (of_Z 0) || gt (f_sem f) (of_Z 10).

(** One check: when the condition holds the input gets the class [error]
    and [hasError] is set; otherwise the class is removed and [hasError]
    is left as it was. *)
Definition check (bad : bool) (el : input) (hasError : bool) : input * bool :=
  if bad then (class_add "error" el, true)
  else (class_remove "error" el, hasError).

(** [total_classes > 0 ? Math.round((attended / total_classes) * 100) : 0] *)
Definition attendance_percent (f : fields) : number :=
  if gt (f_total_classes f) (of_Z 0)
  then round (mul (div (f_attended f) (f_total_classes f)) (of_Z 100))
  else of_Z 0.

(** [i1 + i2 + assign + sem] *)
Definition total (f : fields) : number :=
  add (add (add (f_i1 f) (f_i2 f)) (f_assign f)) (f_sem f).

(** [Math.round((total / 160) * 20)] *)
Definition final_of (t : number) : number :=
  round (mul (div t (of_Z 160)) (of_Z 20)).

Definition final (f : fields) : number := final_of (total f).

Definition grade_of (fin : number) : string :=
  if ge fin (of_Z 18) then "A+"
  else if ge fin (of_Z 15) then "A"
  else if ge fin (of_Z 12) then "B"
  else if ge fin (of_Z 10) then "C"
  else "D".

Definition gradeClass (grade : string) : string :=
  if String.eqb grade "A+" then "grade-aplus"
  else if String.eqb grade "A" then "grade-a"
  else if String.eqb grade "B" then "grade-b"
  else if String.eqb grade "C" then "grade-c"
  else "grade-d".

Definition risk_of (att fin : number) : string :=
  if lt att (of_Z 70) || lt fin (of_Z 10) then "Critical"
  else if lt fin (of_Z 15) then "Average"
  else if eq fin (of_Z 20) then "Best"
  else "Safe".

Definition riskClass (risk : string) : string :=
  if String.eqb risk "Critical" then "risk-critical"
  else if String.eqb risk "Average" then "risk-average"
  else if String.eqb risk "Safe" then "risk-safe"
  else "risk-best".

(** The double quote of the badge markup. *)
Definition dq : string := String (ascii_of_nat 34) EmptyString.

(** The markup [<span class=?KIND CLS?>NAME</span>], each [?] a double
    quote. *)
Definition badge (kind cls name : string) : string :=
  "<span class=" ++ dq ++ kind ++ " " ++ cls ++ dq ++ ">" ++ name ++ "</span>".

Definition grade_badge (grade : string) : string :=
  badge "grade-badge" (gradeClass grade) grade.

Definition risk_badge (risk : string) : string :=
  badge "risk-badge" (riskClass risk) risk.

(** The body of [calculateRow] once the row has been found. *)
Definition calculate (r : row) : row :=
  let f := read_fields r in
  let hasError := false in
  let '(attended_el, hasError) :=
    check (bad_attended f) (attended_classes r) hasError in
  let '(internal1_el, hasError) := check (bad_i1 f) (internal1 r) hasError in
  let '(internal2_el, hasError) := check (bad_i2 f) (internal2 r) hasError in
  let '(assignment_el, hasError) :=
    check (bad_assign f) (assignment r) hasError in
  let '(seminar_el, hasError) := check (bad_sem f) (seminar r) hasError in
  if hasError then
    {| total_classes := total_classes r;
       attended_classes := attended_el;
       internal1 := internal1_el;
       internal2 := internal2_el;
       assignment := assignment_el;
       seminar := seminar_el;
       total_text := "ERR";
       final_text := "ERR";
       final_calc := "0";
       grade_html := "-";
       risk_html := "-" |}
  else
    let attendance := attendance_percent f in
    let t := total f in
    let fin := final_of t in
    let grade := grade_of fin in
    let risk := risk_of attendance fin in
    {| total_classes := total_classes r;
       attended_classes := attended_el;
       internal1 := internal1_el;
       internal2 := internal2_el;
       assignment := assignment_el;
       seminar := seminar_el;
       total_text := to_string t;
       final_text := to_string fin;
       final_calc := to_string fin;
       grade_html := grade_badge grade;
       risk_html := risk_badge risk |}.

(** [calculateRow(studentId)]: nothing happens when the page has no row
    for the student. *)
Definition calculateRow (studentId : string) (doc : document) : document :=
  match doc !! studentId with
  | None => doc
  | Some r => <[studentId := calculate r]> doc
  end.

(** A sample row with the given input values, no input marked yet, used
    for the scenarios below. *)
Definition fresh (tc att i1 i2 asg sem : string) : row :=
  let inp v := {| value := v; classList := ["form-control"] |} in
  {| total_classes := inp tc;
     attended_classes := inp att;
     internal1 := inp i1;
     internal2 := inp i2;
     assignment := inp asg;
     seminar := inp sem;
     total_text := "0";
     final_text := "0";
     final_calc := "0";
     grade_html := "-";
     risk_html := "-" |}.

End Calc.

(** ** The specification's reading of a row *)

Module Spec.

Import Num Parse Dom Calc.

(** Whether any of the five checks fails: the value of [hasError] after
    the last check. *)
Definition hasError (f : fields) : bool :=
  bad_attended f || bad_i1 f || bad_i2 f || bad_assign f || bad_sem f.

(** What a check leaves of its input. *)
Definition mark (bad : bool) (el : input) : input :=
  if bad then class_add "error" el else class_remove "error" el.

(** The mathematical integer a field's text stands for: what [parseInt]
    reads, and 0 when it reads nothing. *)
Definition int_value (s : string) : Z :=
  match scan s with
  | Some (neg, m) => if neg then - m else m
  | None => 0
  end.

(** [x] lies in the closed interval [[lo, hi]]. *)
Definition within (lo hi : Z) (x : number) : bool :=
  le (of_Z lo) x && le x (of_Z hi).

(** All five fields pass validation: attended <= total classes, both
    internals in [0,70], assignment and seminar in [0,10]. *)
Definition valid_row (r : row) : Prop :=
  let f := read_fields r in
  le (f_attended f) (f_total_classes f) = true /\
  within 0 70 (f_i1 f) = true /\
  within 0 70 (f_i2 f) = true /\
  within 0 10 (f_assign f) = true /\
  within 0 10 (f_sem f) = true.

(** The integer nearest to [a / b] for [b > 0], halves rounded up. *)
Definition round_div (a b : Z) : Z := (2 * a + b) / (2 * b).

(** [total = internal1 + internal2 + assignment + seminar] *)
Definition spec_total (r : row) : Z :=
  int_value (value (internal1 r)) + int_value (value (internal2 r)) +
  int_value (value (assignment r)) + int_value (value (seminar r)).

(** [final = round(20 * total / 160)] *)
Definition spec_final (t : Z) : Z := round_div (20 * t) 160.

(** Grade by inclusive lower bounds, first match wins. *)
Definition spec_grade (fin : Z) : string :=
  if 18 <=? fin then "A+"
  else if 15 <=? fin then "A"
  else if 12 <=? fin then "B"
  else if 10 <=? fin then "C"
  else "D".

(** Risk by the top-down rules, on the attendance percentage the code
    computed and the integer final mark. *)
Definition spec_risk (att : number) (fin : Z) : string :=
  if lt att (of_Z 70) || (fin <? 10) then "Critical"
  else if fin <? 15 then "Average"
  else if fin =? 20 then "Best"
  else "Safe".

Definition is_zero (x : number) : bool :=
  match x with
  | S754_zero _ => true
  | _ => false
  end.

(** Two rows whose inputs hold the same text except for internal1. *)
Definition differ_only_in_internal1 (r r' : row) : Prop :=
  value (total_classes r) = value (total_classes r') /\
  value (attended_classes r) = value (attended_classes r') /\
  value (internal2 r) = value (internal2 r') /\
  value (assignment r) = value (assignment r') /\
  value (seminar r) = value (seminar r').

(** The integers [0, 1, ..., n - 1]. *)
Definition upto (n : nat) : list Z := map Z.of_nat (seq 0 n).

(** The five outputs of a row. *)
Definition outputs (r : row) : string * string * string * string * string :=
  (total_text r, final_text r, final_calc r, grade_html r, risk_html r).

(** Whether each of the five validated inputs carries the class [error]. *)
Definition error_marks (r : row) : bool * bool * bool * bool * bool :=
  (has_class "error" (attended_classes r), has_class "error" (internal1 r),
   has_class "error" (internal2 r), has_class "error" (assignment r),
   has_class "error" (seminar r)).

End Spec.

(** ** The key filter of the numeric inputs *)

Module Keys.

(** A keyboard event as [onlyNumbers] sees it: the [which] and [keyCode]
    properties, each a non-negative integer or undefined. *)
Record event := { which : option Z; keyCode : option Z }.

(** [ToBoolean] of a key code: undefined and 0 are falsy. *)
Definition code_truthy (c : option Z) : bool :=
  match c with
  | Some z => negb (z =? 0)
  | None => false
  end.

(** [c > k] and [c < k]; false when [c] is undefined. *)
Definition code_gt (c : option Z) (k : Z) : bool :=
  match c with
  | Some z => k <? z
  | None => false
  end.

Definition code_lt (c : option Z) (k : Z) : bool :=
  match c with
  | Some z => z <? k
  | None => false
  end.

(** [onlyNumbers(e)]: the handler's return value; [false] cancels the
    key press. *)
Definition onlyNumbers (e : event) : bool :=
  let charCode := if code_truthy (which e) then which e else keyCode e in
  if code_gt charCode 31 && (code_lt charCode 48 || code_gt charCode 57)
  then false
  else true.

End Keys.

(** ** padNumber *)

Module Pad.

Import Num ToString.

(** The loop [while (s.length < size) s = "0" + s], run for at most
    [fuel] iterations; [None] when the loop has not ended by then. *)
Fixpoint pad_loop (fuel : nat) (s : string) (size : number) : option string :=
  if lt (of_Z (Z.of_nat (String.length s))) size then
    match fuel with
    | O => None
    | S f => pad_loop f ("0" ++ s) size
    end
  else Some s.

(** [padNumber(num, size)] for a Number [num]. *)
Definition padNumber (fuel : nat) (num size : number) : option string :=
  pad_loop fuel (to_string num ++ "") size.

End Pad.

(** ** Further notions used in the statements *)

Module Derived.

Import Num Parse ToString Dom Calc Spec Keys.

Definition code (c : ascii) : Z := Z.of_N (N_of_ascii c).

(** The key press that types the character [c]. *)
Definition keypress (c : ascii) : event :=
  {| which := Some (code c); keyCode := Some (code c) |}.

(** [c] is one of the characters 0 to 9. *)
Definition is_digit (c : ascii) : bool := (48 <=? code c) && (code c <=? 57).

Fixpoint all_chars (P : ascii -> bool) (s : string) : bool :=
  match s with
  | String c s' => P c && all_chars P s'
  | EmptyString => true
  end.

(** Text every character of which is printable and let through by
    [onlyNumbers]. *)
Definition typed (s : string) : bool :=
  all_chars (fun c => (31 <? code c) && onlyNumbers (keypress c)) s.

(** The text does not go on with a digit, nor with an [x] that could
    form a hexadecimal prefix. *)
Definition stops_number (t : string) : bool :=
  match t with
  | String c _ =>
      negb (is_digit c) && negb (code c =? 120) && negb (code c =? 88)
  | EmptyString => true
  end.

(** The integers the two class counts stand for. *)
Definition int_total (r : row) : Z := int_value (value (total_classes r)).
Definition int_attended (r : row) : Z := int_value (value (attended_classes r)).

(** The six inputs of the two rows hold the same text. *)
Definition same_texts (r r' : row) : Prop :=
  value (total_classes r) = value (total_classes r') /\
  value (attended_classes r) = value (attended_classes r') /\
  value (internal1 r) = value (internal1 r') /\
  value (internal2 r) = value (internal2 r') /\
  value (assignment r) = value (assignment r') /\
  value (seminar r) = value (seminar r').

(** The six inputs of a row, in the order of the code. *)
Definition inputs (r : row) : list input :=
  [total_classes r; attended_classes r; internal1 r; internal2 r;
   assignment r; seminar r].

(** The grade in terms of the total of the four marks. *)
Definition grade_by_total (t : Z) : string :=
  if 140 <=? t then "A+"
  else if 116 <=? t then "A"
  else if 92 <=? t then "B"
  else if 76 <=? t then "C"
  else "D".

(** The risk in terms of the classes attended [a], the classes held [t]
    and the total [marks]: attendance counts against the student when no
    class was held or when [a / t] is below 69.5 per cent. *)
Definition risk_by_counts (a t marks : Z) : string :=
  if (t =? 0) || (200 * a <? 139 * t) || (marks <? 76) then "Critical"
  else if marks <? 116 then "Average"
  else if 156 <=? marks then "Best"
  else "Safe".

(** The attendance percentage the code computes for [a] classes attended
    of [t] held. *)
Definition percent_of (a t : Z) : number :=
  attendance_percent
    {| f_total_classes := of_Z t; f_attended := of_Z a; f_i1 := pzero;
       f_i2 := pzero; f_assign := pzero; f_sem := pzero |}.

(** What is evaluated at [a] classes attended of [t] held: the
    percentage computed is below 70 just when no class was held or
    [a / t] is below 69.5 per cent; and it is the exactly rounded
    percentage or the integer below it, between 0 and 100. *)
Definition attendance_ok (p : Z * Z) : bool :=
  let (a, t) := p in
  let x := percent_of a t in
  let e := round_div (100 * a) t in
  Bool.eqb (lt x (of_Z 70)) ((t =? 0) || (200 * a <? 139 * t)) &&
  ((t =? 0) ||
   ((sf_eqb x (of_Z e) || (1 <=? e) && sf_eqb x (of_Z (e - 1))) &&
    (e <=? 100))).

(** The pairs [(a, t)] with [0 <= a <= t < n]. *)
Definition pairs_upto (n : nat) : list (Z * Z) :=
  flat_map (fun t => map (fun a => (a, t)) (upto (S (Z.to_nat t)))) (upto n).

End Derived.

Import Num Parse ToString Dom Calc Spec Keys Pad Derived.

(** * Facts about binary64 rounding *)

Lemma digits2_bounds (p : positive) :
  2 ^ (Z.pos (digits2_pos p) - 1) <= Z.pos p < 2 ^ Z.pos (digits2_pos p).
Proof.
  induction p as [p IH | p IH |]; cbn [digits2_pos].
  - rewrite Pos2Z.inj_succ.
    change (Z.pos p~1) with (2 * Z.pos p + 1).
    replace (Z.succ (Z.pos (digits2_pos p)) - 1)
      with (Z.succ (Z.pos (digits2_pos p) - 1)) by lia.
    rewrite !Z.pow_succ_r by lia.
    set (a := 2 ^ (Z.pos (digits2_pos p) - 1)) in *.
    set (b := 2 ^ Z.pos (digits2_pos p)) in *. lia.
  - rewrite Pos2Z.inj_succ.
    change (Z.pos p~0) with (2 * Z.pos p).
    replace (Z.succ (Z.pos (digits2_pos p)) - 1)
      with (Z.succ (Z.pos (digits2_pos p) - 1)) by lia.
    rewrite !Z.pow_succ_r by lia.
    set (a := 2 ^ (Z.pos (digits2_pos p) - 1)) in *.
    set (b := 2 ^ Z.pos (digits2_pos p)) in *. lia.
  - cbn. lia.
Qed.

Lemma shr_1_m (mrs : shr_record) :
  0 <= shr_m mrs -> shr_m (shr_1 mrs) = shr_m mrs / 2.
Proof.
  intros H. rewrite <- Z.div2_div.
  destruct mrs as [[|[p|p|]|p] r s]; cbn in H; try reflexivity; lia.
Qed.

Lemma iter_pos_shr_m (q : positive) :
  forall mrs, 0 <= shr_m mrs ->
    shr_m (SpecFloat.iter_pos shr_1 q mrs) = shr_m mrs / 2 ^ Z.pos q.
Proof.
  induction q as [q IH | q IH |]; intros mrs Hm; cbn [SpecFloat.iter_pos].
  - assert (H1 : 0 <= shr_m (shr_1 mrs)).
    { rewrite shr_1_m by assumption. apply Z.div_pos; lia. }
    assert (H2 : 0 <= shr_m (SpecFloat.iter_pos shr_1 q (shr_1 mrs))).
    { rewrite IH by assumption. apply Z.div_pos; [lia | apply Z.pow_pos_nonneg; lia]. }
    rewrite IH, IH, shr_1_m by assumption.
    rewrite !Z.div_div by (try apply Z.pow_pos_nonneg; lia).
    f_equal. change (Z.pos q~1) with (2 * Z.pos q + 1).
    replace (2 * Z.pos q + 1) with (1 + Z.pos q + Z.pos q) by lia.
    rewrite !Z.pow_add_r by lia. lia.
  - assert (H2 : 0 <= shr_m (SpecFloat.iter_pos shr_1 q mrs)).
    { rewrite IH by assumption. apply Z.div_pos; [lia | apply Z.pow_pos_nonneg; lia]. }
    rewrite IH, IH by assumption.
    rewrite !Z.div_div by (try apply Z.pow_pos_nonneg; lia).
    f_equal. change (Z.pos q~0) with (2 * Z.pos q).
    replace (2 * Z.pos q) with (Z.pos q + Z.pos q) by lia.
    rewrite !Z.pow_add_r by lia. lia.
  - rewrite shr_1_m by assumption. reflexivity.
Qed.

Lemma shr_fexp_exact (m : positive) (e : Z) :
  -1021 <= e ->
  exists mrs e',
    shr_fexp prec emax (Z.pos m) e loc_Exact = (mrs, e') /\
    0 < shr_m mrs /\ e <= e' /\ Z.pos (digits2_pos m) + e - 53 <= e'.
Proof.
  intros He. unfold shr_fexp, fexp, emin, prec, emax. cbn [Zdigits2 shr_record_of_loc].
  pose proof (digits2_bounds m) as [Hlo Hhi].
  set (d := Z.pos (digits2_pos m)) in *.
  replace (Z.max (d + e - 53) (3 - 1024 - 53) - e) with (d - 53) by lia.
  destruct (d - 53) as [|q|q] eqn:Hn; cbn [shr].
  - eexists _, _. split; [reflexivity|]. cbn. lia.
  - eexists _, _. split; [reflexivity|].
    rewrite iter_pos_shr_m by (cbn; lia). cbn [shr_m].
    split; [|lia].
    assert (Hq : 2 ^ Z.pos q <= Z.pos m).
    { apply Z.le_trans with (2 ^ (d - 1)); [|assumption].
      apply Z.pow_le_mono_r; lia. }
    assert (Hp : 0 < 2 ^ Z.pos q) by (apply Z.pow_pos_nonneg; lia).
    apply Z.div_str_pos. lia.
  - eexists _, _. split; [reflexivity|]. cbn. lia.
Qed.

Lemma round_nearest_even_ge (m : Z) (l : location) :
  m <= round_nearest_even m l.
Proof.
  destruct l as [|[| |]]; cbn; try lia. destruct (Z.even m); lia.
Qed.

Section Shape.

(** The sign of the value being rounded. *)
Variable s : bool.

(** Rounding a positive integer mantissa that is not in the subnormal
    range gives a finite Number of the same sign whose exponent is no
    smaller, or the infinity of that sign. *)
Lemma binary_round_aux_shape (mx : positive) (ex : Z) :
  -1021 <= ex ->
  binary_round_aux prec emax s (Z.pos mx) ex loc_Exact = S754_infinity s \/
  exists m e,
    binary_round_aux prec emax s (Z.pos mx) ex loc_Exact = S754_finite s m e /\
    ex <= e /\ Z.pos (digits2_pos mx) + ex - 53 <= e.
Proof.
  intros He. unfold binary_round_aux.
  destruct (shr_fexp_exact mx ex He) as (mrs1 & e1 & -> & Hm1 & He1 & Hd1).
  pose proof (round_nearest_even_ge (shr_m mrs1) (loc_of_shr_record mrs1)) as Hr.
  destruct (round_nearest_even (shr_m mrs1) (loc_of_shr_record mrs1))
    as [|m1|m1] eqn:Hm; try lia.
  destruct (shr_fexp_exact m1 e1 ltac:(lia)) as (mrs2 & e2 & -> & Hm2 & He2 & Hd2).
  destruct (shr_m mrs2) as [|m2|m2]; try lia.
  destruct (e2 <=? emax - prec); [right|left; reflexivity].
  exists m2, e2. split; [reflexivity|lia].
Qed.

(** So does rounding a positive integer: the exponent is at least the
    number of its binary digits less 53. *)
Lemma binary_round_shape (p : positive) :
  binary_round prec emax s p 0 = S754_infinity s \/
  exists m e,
    binary_round prec emax s p 0 = S754_finite s m e /\
    Z.pos (digits2_pos p) - 53 <= e.
Proof.
  unfold binary_round, shl_align, fexp, emin, prec, emax.
  set (d := Z.pos (digits2_pos p)).
  assert (Hd : 0 < d) by (unfold d; lia).
  replace (Z.max (d + 0 - 53) (3 - 1024 - 53) - 0) with (d - 53) by lia.
  replace (Z.max (d + 0 - 53) (3 - 1024 - 53)) with (d - 53) by lia.
  destruct (d - 53) as [|q|q] eqn:Hq.
  - destruct (binary_round_aux_shape p 0 ltac:(lia)) as [H|(m & e & H & H1 & H2)];
      [left; exact H|right; exists m, e; split; [exact H|fold d in H2; lia]].
  - destruct (binary_round_aux_shape p 0 ltac:(lia)) as [H|(m & e & H & H1 & H2)];
      [left; exact H|right; exists m, e; split; [exact H|fold d in H2; lia]].
  - destruct (binary_round_aux_shape (Pos.iter xO p q) (Z.neg q) ltac:(lia))
      as [H|(m & e & H & H1 & H2)];
      [left; exact H|right; exists m, e; split; [exact H|lia]].
Qed.

End Shape.

(** * Numbers of integers *)

Lemma of_Z_0 : of_Z 0 = S754_zero false.
Proof. reflexivity. Qed.

Lemma of_Z_shape (n : Z) :
  n <> 0 ->
  of_Z n = S754_infinity (n <? 0) \/
  exists m e, of_Z n = S754_finite (n <? 0) m e /\ Z.log2 (Z.abs n) - 52 <= e.
Proof.
  intros Hn. unfold of_Z, binary_normalize.
  assert (Hd : forall p, Z.log2 (Z.pos p) < Z.pos (digits2_pos p)).
  { intros p. pose proof (digits2_bounds p). apply Z.log2_lt_pow2; lia. }
  destruct n as [|p|p]; [congruence| |].
  - destruct (binary_round_shape false p) as [H|(m & e & H & He)];
      [left; exact H|right; exists m, e; split; [exact H|]].
    specialize (Hd p). change (Z.abs (Z.pos p)) with (Z.pos p). lia.
  - destruct (binary_round_shape true p) as [H|(m & e & H & He)];
      [left; exact H|right; exists m, e; split; [exact H|]].
    specialize (Hd p). change (Z.abs (Z.neg p)) with (Z.pos p). lia.
Qed.

Lemma of_Z_truthy (n : Z) : n <> 0 -> truthy (of_Z n) = true.
Proof.
  intros Hn. destruct (of_Z_shape n Hn) as [->|(m & e & -> & _)]; reflexivity.
Qed.

Lemma of_Z_not_nan (n : Z) : of_Z n <> NaN.
Proof.
  destruct (Z.eq_dec n 0) as [->|Hn]; [discriminate|].
  destruct (of_Z_shape n Hn) as [->|(m & e & -> & _)]; discriminate.
Qed.

(** Every field is read as the Number of an integer. *)
Lemma read_field_int (s : string) : read_field s = of_Z (int_value s).
Proof.
  unfold read_field, parseInt, int_value.
  destruct (scan s) as [[neg m]|]; [|reflexivity].
  destruct (Z.eq_dec m 0) as [->|Hm].
  - destruct neg; reflexivity.
  - assert (Hz : (if neg then - m else m) <> 0) by (destruct neg; lia).
    destruct m as [|p|p]; [congruence| |];
      cbv beta iota; unfold or_zero; rewrite of_Z_truthy by assumption;
      reflexivity.
Qed.

Lemma of_Z_negative (n : Z) : n < 0 -> lt (of_Z n) (of_Z 0) = true.
Proof.
  intros Hn. destruct (of_Z_shape n ltac:(lia)) as [->|(m & e & -> & _)];
    replace (n <? 0) with true by (symmetry; apply Z.ltb_lt; lia); reflexivity.
Qed.

Lemma of_Z_large (n : Z) (mc : positive) (ec : Z) :
  0 < n -> ec < Z.log2 n - 52 ->
  gt (of_Z n) (S754_finite false mc ec) = true.
Proof.
  intros Hn He. rewrite <- (Z.abs_eq n) in He by lia.
  destruct (of_Z_shape n ltac:(lia)) as [->|(m & e & -> & Hle)];
    replace (n <? 0) with false by (symmetry; apply Z.ltb_ge; lia);
    [reflexivity|].
  unfold gt, SFltb, SFcompare.
  replace (ec ?= e) with Lt by (symmetry; apply Z.compare_lt_iff; lia).
  reflexivity.
Qed.

Lemma forallb_upto (P : Z -> bool) (n : nat) :
  forallb P (upto n) = true ->
  forall z, 0 <= z < Z.of_nat n -> P z = true.
Proof.
  intros H z Hz. rewrite forallb_forall in H. apply H.
  unfold upto. apply in_map_iff. exists (Z.to_nat z).
  split; [lia|]. apply in_seq. lia.
Qed.

Lemma forallb_upto2 (P : Z -> Z -> bool) (n m : nat) :
  forallb (fun a => forallb (P a) (upto m)) (upto n) = true ->
  forall a b, 0 <= a < Z.of_nat n -> 0 <= b < Z.of_nat m -> P a b = true.
Proof.
  intros H a b Ha Hb.
  apply (forallb_upto (P a) m); [|assumption].
  apply (forallb_upto (fun a => forallb (P a) (upto m)) n); assumption.
Qed.

Lemma sf_eqb_eq (x y : number) : sf_eqb x y = true -> x = y.
Proof.
  destruct x as [a|a| |a m e], y as [b|b| |b m' e']; cbn; try discriminate;
    try reflexivity.
  - intros H. apply Bool.eqb_prop in H. congruence.
  - intros H. apply Bool.eqb_prop in H. congruence.
  - intros H. apply andb_prop in H as [H He]. apply andb_prop in H as [Hs Hm].
    apply Bool.eqb_prop in Hs. apply Pos.eqb_eq in Hm. apply Z.eqb_eq in He.
    congruence.
Qed.

(** A fact about every integer of a short range, or every pair of them,
    is settled by evaluating its boolean form on the whole range. *)
Ltac by_table P n :=
  apply (forallb_upto P n); [vm_compute; reflexivity|lia].
Ltac by_table2 P n :=
  apply (forallb_upto2 P n n); [vm_compute; reflexivity|lia|lia].

(** Sums of small non-negative integers are exact. *)
Lemma add_small (a b : Z) :
  0 <= a <= 160 -> 0 <= b <= 160 -> add (of_Z a) (of_Z b) = of_Z (a + b).
Proof.
  intros Ha Hb. apply sf_eqb_eq.
  by_table2 (fun a b => sf_eqb (add (of_Z a) (of_Z b)) (of_Z (a + b))) 161%nat.
Qed.

(** Comparisons of small non-negative integers are those of the integers. *)
Lemma lt_small (a b : Z) :
  0 <= a <= 160 -> 0 <= b <= 160 -> lt (of_Z a) (of_Z b) = (a <? b).
Proof.
  intros Ha Hb. apply Bool.eqb_prop.
  by_table2 (fun a b => Bool.eqb (lt (of_Z a) (of_Z b)) (a <? b)) 161%nat.
Qed.

Lemma le_small (a b : Z) :
  0 <= a <= 160 -> 0 <= b <= 160 -> le (of_Z a) (of_Z b) = (a <=? b).
Proof.
  intros Ha Hb. apply Bool.eqb_prop.
  by_table2 (fun a b => Bool.eqb (le (of_Z a) (of_Z b)) (a <=? b)) 161%nat.
Qed.

Lemma eq_small (a b : Z) :
  0 <= a <= 160 -> 0 <= b <= 160 -> Num.eq (of_Z a) (of_Z b) = (a =? b).
Proof.
  intros Ha Hb. apply Bool.eqb_prop.
  by_table2 (fun a b => Bool.eqb (Num.eq (of_Z a) (of_Z b)) (a =? b)) 161%nat.
Qed.

(** The final mark of a total in [0,160] is the rounded quotient. *)
Lemma final_of_small (t : Z) :
  0 <= t <= 160 -> final_of (of_Z t) = of_Z (spec_final t).
Proof.
  intros Ht. apply sf_eqb_eq.
  by_table (fun t => sf_eqb (final_of (of_Z t)) (of_Z (spec_final t))) 161%nat.
Qed.

Lemma to_string_small (t : Z) :
  0 <= t <= 160 -> to_string (of_Z t) = decimal t.
Proof.
  intros Ht. apply String.eqb_eq.
  by_table (fun t => String.eqb (to_string (of_Z t)) (decimal t)) 161%nat.
Qed.

(** * Comparisons *)

Lemma SFcompare_swap (x y : number) :
  SFcompare y x = option_map CompOpp (SFcompare x y).
Proof.
  destruct x as [a|a| |a m e], y as [b|b| |b m' e']; try reflexivity;
    try (destruct a; reflexivity); try (destruct b; reflexivity);
    try (destruct a, b; reflexivity).
  destruct a, b; cbn; try reflexivity;
    rewrite (Z.compare_antisym e e'); destruct (e ?= e'); cbn; try reflexivity;
    rewrite Pos.compare_cont_antisym; cbn;
    try rewrite CompOpp_involutive; reflexivity.
Qed.

Lemma le_negb_gt (x y : number) :
  x <> NaN -> y <> NaN -> le x y = negb (gt x y).
Proof.
  intros Hx Hy. unfold le, gt, SFleb, SFltb. rewrite (SFcompare_swap x y).
  destruct (SFcompare x y) as [[| |]|] eqn:Hc; try reflexivity.
  destruct x, y; try discriminate; unfold NaN in *; congruence.
Qed.

(** A field fails the check [x < 0 || x > k] exactly when its integer is
    outside [[0, k]]. *)
Lemma bad_range (n k : Z) (mc : positive) (ec : Z) :
  of_Z k = S754_finite false mc ec -> ec < -45 -> 0 <= k <= 160 ->
  lt (of_Z n) (of_Z 0) || gt (of_Z n) (of_Z k) = negb ((0 <=? n) && (n <=? k)).
Proof.
  intros Hk Hec Hk'.
  destruct (Z.ltb_spec n 0) as [Hneg|Hpos].
  - rewrite of_Z_negative by assumption.
    replace (0 <=? n) with false by (symmetry; apply Z.leb_gt; lia). reflexivity.
  - destruct (Z.leb_spec n 160) as [Hsm|Hbig].
    + unfold gt. fold (lt (of_Z k) (of_Z n)). rewrite !lt_small by lia.
      destruct (Z.ltb_spec n 0), (Z.ltb_spec k n), (Z.leb_spec 0 n),
        (Z.leb_spec n k); cbn; try reflexivity; lia.
    + rewrite Hk, of_Z_large.
      * rewrite orb_true_r.
        replace (n <=? k) with false by (symmetry; apply Z.leb_gt; lia).
        rewrite andb_false_r. reflexivity.
      * lia.
      * assert (7 <= Z.log2 n) by (apply Z.log2_le_pow2; lia). lia.
Qed.

Lemma bad_range_70 (n : Z) :
  lt (of_Z n) (of_Z 0) || gt (of_Z n) (of_Z 70) = negb ((0 <=? n) && (n <=? 70)).
Proof. apply (bad_range n 70 4925812092436480 (-46)); [reflexivity|lia|lia]. Qed.

Lemma bad_range_10 (n : Z) :
  lt (of_Z n) (of_Z 0) || gt (of_Z n) (of_Z 10) = negb ((0 <=? n) && (n <=? 10)).
Proof. apply (bad_range n 10 5629499534213120 (-49)); [reflexivity|lia|lia]. Qed.

Lemma within_bad (n k : Z) :
  within 0 k (of_Z n) = negb (lt (of_Z n) (of_Z 0) || gt (of_Z n) (of_Z k)).
Proof.
  unfold within.
  rewrite (le_negb_gt (of_Z 0) (of_Z n)), (le_negb_gt (of_Z n) (of_Z k))
    by apply of_Z_not_nan.
  unfold gt at 1. fold (lt (of_Z n) (of_Z 0)). rewrite negb_orb. reflexivity.
Qed.

(** * The row after validation *)

Lemma read_fields_int (r : row) :
  read_fields r =
  {| f_total_classes := of_Z (int_value (value (total_classes r)));
     f_attended := of_Z (int_value (value (attended_classes r)));
     f_i1 := of_Z (int_value (value (internal1 r)));
     f_i2 := of_Z (int_value (value (internal2 r)));
     f_assign := of_Z (int_value (value (assignment r)));
     f_sem := of_Z (int_value (value (seminar r))) |}.
Proof. unfold read_fields. rewrite !read_field_int. reflexivity. Qed.

(** The claim's reading of a valid row is the code's [hasError] check. *)
Lemma valid_row_hasError (r : row) :
  valid_row r <-> hasError (read_fields r) = false.
Proof.
  unfold valid_row, hasError, bad_attended, bad_i1, bad_i2, bad_assign, bad_sem.
  rewrite read_fields_int. cbn [f_total_classes f_attended f_i1 f_i2 f_assign f_sem].
  rewrite !within_bad, (le_negb_gt _ _ (of_Z_not_nan _) (of_Z_not_nan _)).
  rewrite !negb_true_iff, !orb_false_iff. tauto.
Qed.

Lemma valid_row_ranges (r : row) :
  valid_row r ->
  0 <= int_value (value (internal1 r)) <= 70 /\
  0 <= int_value (value (internal2 r)) <= 70 /\
  0 <= int_value (value (assignment r)) <= 10 /\
  0 <= int_value (value (seminar r)) <= 10.
Proof.
  unfold valid_row. rewrite read_fields_int.
  cbn [f_total_classes f_attended f_i1 f_i2 f_assign f_sem].
  rewrite !within_bad, !bad_range_70, !bad_range_10, !negb_involutive.
  rewrite !andb_true_iff, !Z.leb_le. tauto.
Qed.

Lemma total_valid (r : row) :
  valid_row r ->
  total (read_fields r) = of_Z (spec_total r) /\ 0 <= spec_total r <= 160.
Proof.
  intros Hv. destruct (valid_row_ranges r Hv) as (H1 & H2 & H3 & H4).
  unfold total, spec_total. rewrite read_fields_int.
  cbn [f_i1 f_i2 f_assign f_sem].
  rewrite !add_small by lia. split; [reflexivity|lia].
Qed.

Lemma spec_final_range (t : Z) : 0 <= t <= 160 -> 0 <= spec_final t <= 20.
Proof.
  intros Ht. unfold spec_final, round_div. split.
  - apply Z.div_pos; lia.
  - apply Z.lt_succ_r, Z.div_lt_upper_bound; lia.
Qed.

Lemma spec_final_mono (t t' : Z) : t <= t' -> spec_final t <= spec_final t'.
Proof.
  intros H. unfold spec_final, round_div. apply Z.div_le_mono; lia.
Qed.

Lemma final_valid (r : row) :
  valid_row r ->
  final (read_fields r) = of_Z (spec_final (spec_total r)) /\
  0 <= spec_final (spec_total r) <= 20.
Proof.
  intros Hv. destruct (total_valid r Hv) as [Ht Hr].
  unfold final. rewrite Ht, final_of_small by assumption.
  split; [reflexivity|apply spec_final_range; assumption].
Qed.

(** [calculate] with the thread of [hasError] resolved. *)
Lemma calculate_unfold (r : row) :
  calculate r =
  let f := read_fields r in
  let outs :=
    if hasError f then ("ERR", "ERR", "0", "-", "-")
    else
      (to_string (total f), to_string (final f), to_string (final f),
       grade_badge (grade_of (final f)),
       risk_badge (risk_of (attendance_percent f) (final f))) in
  let '(t_text, f_text, f_calc, g_html, r_html) := outs in
  {| total_classes := total_classes r;
     attended_classes := mark (bad_attended f) (attended_classes r);
     internal1 := mark (bad_i1 f) (internal1 r);
     internal2 := mark (bad_i2 f) (internal2 r);
     assignment := mark (bad_assign f) (assignment r);
     seminar := mark (bad_sem f) (seminar r);
     total_text := t_text;
     final_text := f_text;
     final_calc := f_calc;
     grade_html := g_html;
     risk_html := r_html |}.
Proof.
  unfold calculate, hasError, check, mark, final. cbv zeta.
  destruct (bad_attended (read_fields r)), (bad_i1 (read_fields r)),
    (bad_i2 (read_fields r)), (bad_assign (read_fields r)),
    (bad_sem (read_fields r)); cbv beta iota; cbn [orb]; cbv beta iota;
    reflexivity.
Qed.

(** What [calculate] writes on either path. *)
Lemma outputs_error (r : row) :
  hasError (read_fields r) = true ->
  outputs (calculate r) = ("ERR", "ERR", "0", "-", "-").
Proof. intros H. rewrite calculate_unfold. cbv zeta. rewrite H. reflexivity. Qed.

Lemma outputs_computed (r : row) :
  hasError (read_fields r) = false ->
  let f := read_fields r in
  outputs (calculate r) =
  (to_string (total f), to_string (final f), to_string (final f),
   grade_badge (grade_of (final f)),
   risk_badge (risk_of (attendance_percent f) (final f))).
Proof. intros H. rewrite calculate_unfold. cbv zeta. rewrite H. reflexivity. Qed.

Lemma grade_of_small (fin : Z) :
  0 <= fin <= 20 -> grade_of (of_Z fin) = spec_grade fin.
Proof.
  intros H. unfold grade_of, spec_grade, ge. rewrite !le_small by lia.
  reflexivity.
Qed.

Lemma risk_of_small (att : number) (fin : Z) :
  0 <= fin <= 20 -> risk_of att (of_Z fin) = spec_risk att fin.
Proof.
  intros H. unfold risk_of, spec_risk.
  rewrite !lt_small, eq_small by lia. reflexivity.
Qed.

Lemma outputs_valid (r : row) :
  valid_row r ->
  let t := spec_total r in
  let fin := spec_final t in
  outputs (calculate r) =
  (decimal t, decimal fin, decimal fin, grade_badge (spec_grade fin),
   risk_badge (spec_risk (attendance_percent (read_fields r)) fin)).
Proof.
  intros Hv t fin. subst t fin.
  rewrite outputs_computed by (apply valid_row_hasError; assumption).
  destruct (total_valid r Hv) as [Ht Htr].
  destruct (final_valid r Hv) as [Hf Hfr].
  cbv zeta. rewrite Ht, Hf, !to_string_small, grade_of_small, risk_of_small
    by lia.
  reflexivity.
Qed.

(** * Marking inputs *)

Lemma value_mark (b : bool) (el : input) : value (mark b el) = value el.
Proof. destruct b; reflexivity. Qed.

Lemma has_class_mark (b : bool) (el : input) :
  has_class "error" (mark b el) = b.
Proof.
  unfold has_class, mark. destruct b; cbn [class_add class_remove classList].
  - destruct (existsb (String.eqb "error") (classList el)) eqn:E; [exact E|].
    rewrite existsb_app, E. reflexivity.
  - induction (classList el) as [|c l IH]; [reflexivity|].
    cbn [List.filter]. destruct (String.eqb "error" c) eqn:E; cbn [negb];
      [exact IH|].
    cbn [existsb]. rewrite E, IH. reflexivity.
Qed.

Lemma mark_idempotent (b : bool) (el : input) :
  mark b (mark b el) = mark b el.
Proof.
  unfold mark. destruct b.
  - unfold class_add at 1. cbn [value classList].
    pose proof (has_class_mark true el) as H. unfold has_class, mark in H.
    rewrite H. destruct el; reflexivity.
  - unfold class_remove. cbn [value classList]. f_equal.
    induction (classList el) as [|c l IH]; [reflexivity|].
    cbn [List.filter]. destruct (String.eqb "error" c) eqn:E; cbn [negb];
      [exact IH|].
    cbn [List.filter]. rewrite E, IH. reflexivity.
Qed.

Lemma calculate_inputs (r : row) :
  let f := read_fields r in
  total_classes (calculate r) = total_classes r /\
  attended_classes (calculate r) = mark (bad_attended f) (attended_classes r) /\
  internal1 (calculate r) = mark (bad_i1 f) (internal1 r) /\
  internal2 (calculate r) = mark (bad_i2 f) (internal2 r) /\
  assignment (calculate r) = mark (bad_assign f) (assignment r) /\
  seminar (calculate r) = mark (bad_sem f) (seminar r).
Proof.
  rewrite calculate_unfold. cbv zeta.
  destruct (hasError (read_fields r)); repeat split.
Qed.

(** [calculate] leaves the text of the inputs alone, so a second run
    reads the same six Numbers. *)
Lemma read_fields_calculate (r : row) :
  read_fields (calculate r) = read_fields r.
Proof.
  destruct (calculate_inputs r) as (H0 & H1 & H2 & H3 & H4 & H5).
  unfold read_fields at 1. rewrite H0, H1, H2, H3, H4, H5, !value_mark.
  reflexivity.
Qed.

Lemma calculate_idempotent (r : row) : calculate (calculate r) = calculate r.
Proof.
  destruct (calculate_inputs r) as (H0 & H1 & H2 & H3 & H4 & H5).
  rewrite (calculate_unfold (calculate r)). cbv zeta.
  rewrite read_fields_calculate, H0, H1, H2, H3, H4, H5, !mark_idempotent.
  rewrite (calculate_unfold r). reflexivity.
Qed.

(** The outputs and marks are a function of the six input texts. *)
Lemma outputs_depend_on_values (r r' : row) :
  read_fields r = read_fields r' ->
  outputs (calculate r) = outputs (calculate r') /\
  error_marks (calculate r) = error_marks (calculate r').
Proof.
  intros E.
  destruct (calculate_inputs r) as (_ & H1 & H2 & H3 & H4 & H5).
  destruct (calculate_inputs r') as (_ & H1' & H2' & H3' & H4' & H5').
  unfold error_marks.
  rewrite H1, H2, H3, H4, H5, H1', H2', H3', H4', H5', !has_class_mark, E.
  split; [|reflexivity].
  rewrite !calculate_unfold. cbv zeta. rewrite E. unfold outputs.
  destruct (hasError (read_fields r'));
    cbn [total_text final_text final_calc grade_html risk_html]; reflexivity.
Qed.


(** * Claims *)

(** A concrete row is shown valid by evaluating its five checks. *)
Ltac valid_by_evaluation := repeat split; vm_compute; reflexivity.


(** C1: for every row whose five checked fields pass validation, the
    total is the sum of the four marks and lies in [0,160], the final
    mark is [round(20 * total / 160)] and lies in [0,20], and both are
    what the row displays and submits. *)
Theorem valid_total_final (r : row) :
  valid_row r ->
  let t := spec_total r in
  let fin := spec_final t in
  total (read_fields r) = of_Z t /\ 0 <= t <= 160 /\
  final (read_fields r) = of_Z fin /\ 0 <= fin <= 20 /\
  total_text (calculate r) = decimal t /\
  final_text (calculate r) = decimal fin /\
  final_calc (calculate r) = decimal fin.
Proof.
  intros Hv t fin. subst t fin.
  destruct (total_valid r Hv) as [Ht Htr].
  destruct (final_valid r Hv) as [Hf Hfr].
  pose proof (outputs_valid r Hv) as Ho. unfold outputs in Ho. cbv zeta in Ho.
  injection Ho as Ho1 Ho2 Ho3 _ _.
  repeat split; try assumption; lia.
Qed.

Lemma valid_total_final_witness :
  valid_row (fresh "50" "40" "60" "55" "8" "7") /\
  total_text (calculate (fresh "50" "40" "60" "55" "8" "7")) = "130" /\
  final_text (calculate (fresh "50" "40" "60" "55" "8" "7")) = "16".
Proof.
  assert (Hv : valid_row (fresh "50" "40" "60" "55" "8" "7"))
    by valid_by_evaluation.
  split; [exact Hv|].
  destruct (valid_total_final _ Hv) as (_ & _ & _ & _ & H1 & H2 & _).
  split; [rewrite H1|rewrite H2]; vm_compute; reflexivity.
Defined.

(** C2: whenever at least one of the five checks fails, the total and
    final displays read ERR, the hidden final value is 0, the grade and
    risk displays hold the placeholder, whatever the other fields are. *)
Theorem invalid_row_shows_error (r : row) :
  let f := read_fields r in
  bad_attended f = true \/ bad_i1 f = true \/ bad_i2 f = true \/
  bad_assign f = true \/ bad_sem f = true ->
  total_text (calculate r) = "ERR" /\ final_text (calculate r) = "ERR" /\
  final_calc (calculate r) = "0" /\ grade_html (calculate r) = "-" /\
  risk_html (calculate r) = "-".
Proof.
  intros f H.
  assert (He : hasError (read_fields r) = true).
  { unfold hasError. fold f.
    destruct H as [H|[H|[H|[H|H]]]]; rewrite H; rewrite ?orb_true_r; reflexivity. }
  pose proof (outputs_error r He) as Ho. unfold outputs in Ho.
  injection Ho as -> -> -> -> ->. repeat split.
Qed.

Lemma invalid_row_shows_error_witness :
  bad_i1 (read_fields (fresh "50" "40" "75" "55" "8" "7")) = true /\
  total_text (calculate (fresh "50" "40" "75" "55" "8" "7")) = "ERR" /\
  final_calc (calculate (fresh "50" "40" "75" "55" "8" "7")) = "0".
Proof.
  assert (Hb : bad_i1 (read_fields (fresh "50" "40" "75" "55" "8" "7")) = true)
    by (vm_compute; reflexivity).
  split; [exact Hb|].
  destruct (invalid_row_shows_error (fresh "50" "40" "75" "55" "8" "7")
              (or_intror (or_introl Hb))) as (H1 & _ & H3 & _).
  split; assumption.
Defined.

(** Scenario C in general: internal1 = 75 invalidates the row whatever
    the other inputs hold. *)
Lemma internal1_75_shows_error (r : row) :
  value (internal1 r) = "75" ->
  outputs (calculate r) = ("ERR", "ERR", "0", "-", "-") /\
  has_class "error" (internal1 (calculate r)) = true.
Proof.
  intros H.
  assert (Hb : bad_i1 (read_fields r) = true).
  { unfold bad_i1, read_fields. cbn [f_i1]. rewrite H. vm_compute. reflexivity. }
  assert (He : hasError (read_fields r) = true).
  { unfold hasError. rewrite Hb, orb_true_r. reflexivity. }
  split; [apply outputs_error; assumption|].
  destruct (calculate_inputs r) as (_ & _ & -> & _).
  rewrite has_class_mark. exact Hb.
Qed.

(** C3: on a valid row the risk shown follows the top-down rules
    (attendance below 70 or final below 10: Critical; else final below
    15: Average; else final equal to 20: Best; else Safe); in particular
    50 classes, 30 attended and full marks give attendance 60, total 160,
    final 20, grade A+ and risk Critical. *)
Theorem valid_risk_rules :
  (forall r : row,
     valid_row r ->
     risk_html (calculate r) =
     risk_badge (spec_risk (attendance_percent (read_fields r))
                   (spec_final (spec_total r)))) /\
  (forall (att : number) (fin : Z),
     (lt att (of_Z 70) = true \/ fin < 10 -> spec_risk att fin = "Critical") /\
     (lt att (of_Z 70) = false -> 10 <= fin < 15 ->
      spec_risk att fin = "Average") /\
     (lt att (of_Z 70) = false -> fin = 20 -> spec_risk att fin = "Best") /\
     (lt att (of_Z 70) = false -> 15 <= fin -> fin <> 20 ->
      spec_risk att fin = "Safe")) /\
  (let r := fresh "50" "30" "70" "70" "10" "10" in
   attendance_percent (read_fields r) = of_Z 60 /\
   total (read_fields r) = of_Z 160 /\
   final (read_fields r) = of_Z 20 /\
   outputs (calculate r) =
   ("160", "20", "20", grade_badge "A+", risk_badge "Critical")).
Proof.
  split.
  - intros r Hv. pose proof (outputs_valid r Hv) as Ho.
    unfold outputs in Ho. cbv zeta in Ho. injection Ho as _ _ _ _ Ho.
    exact Ho.
  - split.
    + intros att fin. unfold spec_risk.
      repeat match goal with |- _ /\ _ => split end.
      * intros [->|H]; [reflexivity|].
        replace (fin <? 10) with true by (symmetry; apply Z.ltb_lt; lia).
        rewrite orb_true_r. reflexivity.
      * intros -> H.
        replace (fin <? 10) with false by (symmetry; apply Z.ltb_ge; lia).
        replace (fin <? 15) with true by (symmetry; apply Z.ltb_lt; lia).
        reflexivity.
      * intros -> ->. reflexivity.
      * intros -> H1 H2.
        replace (fin <? 10) with false by (symmetry; apply Z.ltb_ge; lia).
        replace (fin <? 15) with false by (symmetry; apply Z.ltb_ge; lia).
        replace (fin =? 20) with false by (symmetry; apply Z.eqb_neq; lia).
        reflexivity.
    + vm_compute. repeat split.
Qed.

Lemma valid_risk_rules_witness :
  valid_row (fresh "50" "30" "70" "70" "10" "10") /\
  risk_html (calculate (fresh "50" "30" "70" "70" "10" "10")) =
  risk_badge "Critical".
Proof.
  assert (Hv : valid_row (fresh "50" "30" "70" "70" "10" "10"))
    by valid_by_evaluation.
  split; [exact Hv|].
  rewrite (proj1 valid_risk_rules _ Hv). vm_compute. reflexivity.
Defined.

(** C4: on a valid row the grade shown is decided by the final mark with
    inclusive lower bounds, first match wins: 18 and above A+, 15 and
    above A, 12 and above B, 10 and above C, otherwise D. *)
Theorem valid_grade_thresholds (r : row) :
  valid_row r ->
  let fin := spec_final (spec_total r) in
  grade_of (final (read_fields r)) = spec_grade fin /\
  grade_html (calculate r) = grade_badge (spec_grade fin) /\
  (18 <= fin -> spec_grade fin = "A+") /\
  (15 <= fin < 18 -> spec_grade fin = "A") /\
  (12 <= fin < 15 -> spec_grade fin = "B") /\
  (10 <= fin < 12 -> spec_grade fin = "C") /\
  (fin < 10 -> spec_grade fin = "D").
Proof.
  intros Hv fin. subst fin.
  destruct (final_valid r Hv) as [Hf Hfr].
  pose proof (outputs_valid r Hv) as Ho.
  unfold outputs in Ho. cbv zeta in Ho. injection Ho as _ _ _ Ho _.
  split; [rewrite Hf; apply grade_of_small; assumption|].
  split; [exact Ho|].
  unfold spec_grade.
  repeat split; intros H;
    repeat match goal with
    | |- context [?a <=? ?b] => destruct (Z.leb_spec a b); try lia
    end; reflexivity.
Qed.

Lemma valid_grade_thresholds_witness :
  valid_row (fresh "50" "40" "60" "55" "8" "7") /\
  grade_html (calculate (fresh "50" "40" "60" "55" "8" "7")) = grade_badge "A".
Proof.
  assert (Hv : valid_row (fresh "50" "40" "60" "55" "8" "7"))
    by valid_by_evaluation.
  split; [exact Hv|].
  destruct (valid_grade_thresholds _ Hv) as (_ & H & _).
  rewrite H. vm_compute. reflexivity.
Defined.

(** C5 as stated fails: with 40 classes all attended and marks 20, 20,
    0, 0 the risk shown is not Average. *)
Lemma scenario_D_risk_not_average :
  let r := fresh "40" "40" "20" "20" "0" "0" in
  ~ (total_text (calculate r) = "40" /\ final_text (calculate r) = "5" /\
     grade_html (calculate r) = grade_badge "D" /\
     attendance_percent (read_fields r) = of_Z 100 /\
     risk_html (calculate r) = risk_badge "Average").
Proof. vm_compute. intros (_ & _ & _ & _ & H). discriminate H. Qed.

(** C5, amended: with 40 classes all attended and marks 20, 20, 0, 0 the
    row shows total 40, final 5, grade D and, the final mark being below
    10, risk Critical; the attendance percentage is 100. *)
Theorem scenario_D :
  let r := fresh "40" "40" "20" "20" "0" "0" in
  attendance_percent (read_fields r) = of_Z 100 /\
  total (read_fields r) = of_Z 40 /\
  final (read_fields r) = of_Z 5 /\
  outputs (calculate r) = ("40", "5", "5", grade_badge "D", risk_badge "Critical").
Proof. vm_compute. repeat split. Qed.

(** C6 at the failing input: a negative attended count below the total
    passes every check, no input is marked, and the row shows values
    derived from it (attendance -50 per cent, risk Critical). *)
Theorem negative_attended_not_rejected :
  let r := fresh "10" "-5" "0" "0" "0" "0" in
  f_attended (read_fields r) = of_Z (-5) /\
  hasError (read_fields r) = false /\
  error_marks (calculate r) = (false, false, false, false, false) /\
  attendance_percent (read_fields r) = of_Z (-50) /\
  outputs (calculate r) = ("0", "0", "0", grade_badge "D", risk_badge "Critical").
Proof. vm_compute. repeat split. Qed.

(** C7: with zero classes held and zero attended (the marks valid), the
    row is valid, the guard [total_classes > 0] is false, so the quotient
    is not taken and the attendance percentage is 0; and whenever the
    guard holds the divisor is not a zero. *)
Theorem zero_classes_attendance (r : row) :
  int_value (value (total_classes r)) = 0 ->
  int_value (value (attended_classes r)) = 0 ->
  within 0 70 (f_i1 (read_fields r)) = true ->
  within 0 70 (f_i2 (read_fields r)) = true ->
  within 0 10 (f_assign (read_fields r)) = true ->
  within 0 10 (f_sem (read_fields r)) = true ->
  valid_row r /\
  gt (f_total_classes (read_fields r)) (of_Z 0) = false /\
  attendance_percent (read_fields r) = of_Z 0 /\
  total_text (calculate r) = decimal (spec_total r) /\
  risk_html (calculate r) = risk_badge "Critical" /\
  (forall f : fields,
     gt (f_total_classes f) (of_Z 0) = true ->
     is_zero (f_total_classes f) = false) /\
  (forall f : fields,
     is_zero (f_total_classes f) = true -> attendance_percent f = of_Z 0).
Proof.
  intros Ht Ha H1 H2 H3 H4.
  assert (Hft : f_total_classes (read_fields r) = of_Z 0).
  { rewrite read_fields_int. cbn [f_total_classes]. rewrite Ht. reflexivity. }
  assert (Hfa : f_attended (read_fields r) = of_Z 0).
  { rewrite read_fields_int. cbn [f_attended]. rewrite Ha. reflexivity. }
  assert (Hv : valid_row r).
  { unfold valid_row. rewrite Hft, Hfa. repeat split; assumption. }
  assert (Hatt : attendance_percent (read_fields r) = of_Z 0).
  { unfold attendance_percent. rewrite Hft. reflexivity. }
  pose proof (outputs_valid r Hv) as Ho.
  unfold outputs in Ho. cbv zeta in Ho. injection Ho as Ho1 _ _ _ Ho5.
  split; [exact Hv|]. split; [rewrite Hft; reflexivity|].
  split; [exact Hatt|]. split; [exact Ho1|].
  split; [rewrite Ho5, Hatt; reflexivity|].
  split.
  - intros f. destruct (f_total_classes f) as [s|s| |s m e]; cbn; congruence.
  - intros f. unfold attendance_percent.
    destruct (f_total_classes f) as [s|s| |s m e]; cbn; congruence.
Qed.

Lemma zero_classes_attendance_witness :
  int_value "0" = 0 /\
  attendance_percent (read_fields (fresh "0" "0" "60" "55" "8" "7")) = of_Z 0 /\
  total_text (calculate (fresh "0" "0" "60" "55" "8" "7")) = "130".
Proof.
  split; [reflexivity|].
  destruct (zero_classes_attendance (fresh "0" "0" "60" "55" "8" "7"))
    as (_ & _ & Hatt & Ht & _); try (vm_compute; reflexivity).
  split; [exact Hatt|rewrite Ht; vm_compute; reflexivity].
Defined.

(** C8: of two valid rows that differ only in internal1, the one with
    the larger internal1 has a total and a final mark at least as large. *)
Theorem internal1_monotone (r r' : row) :
  valid_row r -> valid_row r' ->
  differ_only_in_internal1 r r' ->
  le (f_i1 (read_fields r)) (f_i1 (read_fields r')) = true ->
  le (total (read_fields r)) (total (read_fields r')) = true /\
  le (final (read_fields r)) (final (read_fields r')) = true /\
  spec_total r <= spec_total r' /\
  spec_final (spec_total r) <= spec_final (spec_total r').
Proof.
  intros Hv Hv' (_ & _ & E2 & E3 & E4) Hle.
  destruct (valid_row_ranges r Hv) as (R1 & _).
  destruct (valid_row_ranges r' Hv') as (R1' & _).
  destruct (total_valid r Hv) as [Ht Htr].
  destruct (total_valid r' Hv') as [Ht' Htr'].
  destruct (final_valid r Hv) as [Hf Hfr].
  destruct (final_valid r' Hv') as [Hf' Hfr'].
  rewrite !read_fields_int in Hle. cbn [f_i1] in Hle.
  rewrite le_small in Hle by lia. apply Z.leb_le in Hle.
  assert (Hts : spec_total r <= spec_total r').
  { unfold spec_total. rewrite E2, E3, E4. lia. }
  pose proof (spec_final_mono _ _ Hts) as Hfs.
  rewrite Ht, Ht', Hf, Hf', !le_small by lia.
  split; [apply Z.leb_le; exact Hts|].
  split; [apply Z.leb_le; exact Hfs|].
  split; assumption.
Qed.

Lemma internal1_monotone_witness :
  valid_row (fresh "50" "40" "20" "55" "8" "7") /\
  valid_row (fresh "50" "40" "60" "55" "8" "7") /\
  le (final (read_fields (fresh "50" "40" "20" "55" "8" "7")))
     (final (read_fields (fresh "50" "40" "60" "55" "8" "7"))) = true.
Proof.
  assert (Hv : valid_row (fresh "50" "40" "20" "55" "8" "7"))
    by valid_by_evaluation.
  assert (Hv' : valid_row (fresh "50" "40" "60" "55" "8" "7"))
    by valid_by_evaluation.
  split; [exact Hv|]. split; [exact Hv'|].
  destruct (internal1_monotone _ _ Hv Hv') as (_ & H & _);
    [repeat split|vm_compute; reflexivity|exact H].
Defined.

(** C9: running [calculateRow] a second time on unchanged inputs leaves
    the page exactly as the first run left it: the displayed total and
    final, the hidden final value, the grade, the risk and the error
    marks of the row are the same; the run reads nothing but the row. *)
Theorem calculateRow_idempotent :
  (forall (studentId : string) (doc : document),
     calculateRow studentId (calculateRow studentId doc) =
     calculateRow studentId doc) /\
  (forall r : row,
     outputs (calculate (calculate r)) = outputs (calculate r) /\
     error_marks (calculate (calculate r)) = error_marks (calculate r)).
Proof.
  split.
  - intros i doc. unfold calculateRow.
    destruct (doc !! i) as [r|] eqn:E; [|rewrite E; reflexivity].
    rewrite lookup_insert_eq, insert_insert_eq, calculate_idempotent.
    reflexivity.
  - intros r. rewrite calculate_idempotent. split; reflexivity.
Qed.

(** C10 as stated fails for attendedClasses: left empty beside a total
    that reads as negative, the field is read as 0 and yet marked
    invalid, and the row shows the error state. *)
Lemma empty_attended_flagged :
  let r := fresh "-3" "" "0" "0" "0" "0" in
  parseInt (value (attended_classes r)) = NaN /\
  f_attended (read_fields r) = of_Z 0 /\
  has_class "error" (attended_classes (calculate r)) = true /\
  outputs (calculate r) = ("ERR", "ERR", "0", "-", "-").
Proof. vm_compute. repeat split. Qed.

(** C10, amended: a field whose text is empty or does not start with an
    integer is read as 0 before validation.  As internal1, internal2,
    assignment or seminar it then passes its range check and is not
    marked; as attendedClasses it is marked exactly when totalClasses
    reads as a negative number; totalClasses has no check of its own. *)
Theorem unparseable_field_reads_zero (s : string) (r : row) :
  parseInt s = NaN ->
  read_field s = of_Z 0 /\
  (value (internal1 r) = s ->
   f_i1 (read_fields r) = of_Z 0 /\
   has_class "error" (internal1 (calculate r)) = false) /\
  (value (internal2 r) = s ->
   f_i2 (read_fields r) = of_Z 0 /\
   has_class "error" (internal2 (calculate r)) = false) /\
  (value (assignment r) = s ->
   f_assign (read_fields r) = of_Z 0 /\
   has_class "error" (assignment (calculate r)) = false) /\
  (value (seminar r) = s ->
   f_sem (read_fields r) = of_Z 0 /\
   has_class "error" (seminar (calculate r)) = false) /\
  (value (attended_classes r) = s ->
   f_attended (read_fields r) = of_Z 0 /\
   has_class "error" (attended_classes (calculate r)) =
   lt (f_total_classes (read_fields r)) (of_Z 0)) /\
  (value (total_classes r) = s ->
   f_total_classes (read_fields r) = of_Z 0).
Proof.
  intros Hs.
  assert (H0 : read_field s = of_Z 0).
  { unfold read_field. rewrite Hs. reflexivity. }
  destruct (calculate_inputs r) as (_ & H1 & H2 & H3 & H4 & H5).
  rewrite H1, H2, H3, H4, H5, !has_class_mark.
  unfold bad_attended, bad_i1, bad_i2, bad_assign, bad_sem, read_fields.
  cbn [f_total_classes f_attended f_i1 f_i2 f_assign f_sem].
  split; [exact H0|].
  repeat match goal with |- _ /\ _ => split end;
    intros E; rewrite E, ?H0; try split; reflexivity.
Qed.

Lemma unparseable_field_reads_zero_witness :
  parseInt "" = NaN /\
  f_i1 (read_fields (fresh "50" "40" "" "55" "8" "7")) = of_Z 0 /\
  has_class "error" (internal1 (calculate (fresh "50" "40" "" "55" "8" "7")))
  = false.
Proof.
  assert (Hs : parseInt "" = NaN) by reflexivity.
  split; [exact Hs|].
  destruct (unparseable_field_reads_zero "" (fresh "50" "40" "" "55" "8" "7") Hs)
    as (_ & H & _).
  exact (H eq_refl).
Defined.

(** * Further scenarios of the specification *)

(** Scenario A. *)
Example scenario_A :
  let r := fresh "50" "40" "60" "55" "8" "7" in
  attendance_percent (read_fields r) = of_Z 80 /\
  outputs (calculate r) = ("130", "16", "16", grade_badge "A", risk_badge "Safe").
Proof. vm_compute. repeat split. Qed.

(** More classes attended than held: error state, hidden final value 0. *)
Example attended_above_total :
  let r := calculate (fresh "40" "41" "60" "55" "8" "7") in
  has_class "error" (attended_classes r) = true /\
  outputs r = ("ERR", "ERR", "0", "-", "-").
Proof. vm_compute. repeat split. Qed.

(** The percentage is rounded from the binary64 product, which can fall
    just below a half: 29 of 200 classes give 14, not 15. *)
Example attendance_29_of_200 :
  attendance_percent (read_fields (fresh "200" "29" "0" "0" "0" "0")) = of_Z 14.
Proof. vm_compute. reflexivity. Qed.

(** * Exact Numbers of integers below 2^53 *)

Lemma digits2_iter_xO (p k : positive) :
  digits2_pos (Pos.iter xO p k) = (digits2_pos p + k)%positive.
Proof.
  induction k as [|k IH] using Pos.peano_ind.
  - cbn. rewrite Pos.add_1_r. reflexivity.
  - rewrite Pos.iter_succ. cbn [digits2_pos]. rewrite IH, Pos.add_succ_r.
    reflexivity.
Qed.

Lemma Zpos_iter_xO (p k : positive) :
  Z.pos (Pos.iter xO p k) = Z.pos p * 2 ^ Z.pos k.
Proof.
  induction k as [|k IH] using Pos.peano_ind.
  - cbn [Pos.iter]. change (Z.pos p~0) with (2 * Z.pos p). lia.
  - rewrite Pos.iter_succ, Pos2Z.inj_succ, Z.pow_succ_r by lia.
    change (Z.pos (Pos.iter xO p k)~0) with (2 * Z.pos (Pos.iter xO p k)).
    rewrite IH. lia.
Qed.

(** A mantissa of exactly 53 bits with an exponent in range is kept as
    it is. *)
Lemma binary_round_aux_exact (s : bool) (m : positive) (e : Z) :
  Z.pos (digits2_pos m) = 53 -> -1022 <= e <= 971 ->
  binary_round_aux prec emax s (Z.pos m) e loc_Exact = S754_finite s m e.
Proof.
  intros Hd He.
  assert (Hs : shr_fexp prec emax (Z.pos m) e loc_Exact =
               ({| shr_m := Z.pos m; shr_r := false; shr_s := false |}, e)).
  { unfold shr_fexp, fexp, emin, prec, emax. cbn [Zdigits2 shr_record_of_loc].
    rewrite Hd. replace (Z.max (53 + e - 53) (3 - 1024 - 53) - e) with 0 by lia.
    reflexivity. }
  unfold binary_round_aux. rewrite Hs. cbn [shr_m loc_of_shr_record round_nearest_even].
  rewrite Hs. cbn [shr_m]. unfold prec, emax.
  replace (e <=? 1024 - 53) with true by (symmetry; apply Z.leb_le; lia).
  reflexivity.
Qed.

(** The mantissa of a positive integer of at most 53 bits, shifted up to
    53 bits. *)
Lemma binary_round_exact (s : bool) (p : positive) :
  Z.pos (digits2_pos p) <= 53 ->
  exists m,
    binary_round prec emax s p 0 =
    S754_finite s m (Z.pos (digits2_pos p) - 53) /\
    Z.pos m = Z.pos p * 2 ^ (53 - Z.pos (digits2_pos p)).
Proof.
  intros Hd. unfold binary_round, shl_align, fexp, emin, prec, emax.
  set (d := Z.pos (digits2_pos p)) in *.
  assert (H0 : 0 < d) by (unfold d; lia).
  replace (Z.max (d + 0 - 53) (3 - 1024 - 53) - 0) with (d - 53) by lia.
  replace (Z.max (d + 0 - 53) (3 - 1024 - 53)) with (d - 53) by lia.
  destruct (d - 53) as [|q|q] eqn:Hq; [|lia|].
  - exists p. rewrite binary_round_aux_exact by (fold d; lia).
    split; [reflexivity|]. replace (53 - d) with 0 by lia. lia.
  - exists (Pos.iter xO p q).
    rewrite binary_round_aux_exact.
    + split; [reflexivity|]. rewrite Zpos_iter_xO. f_equal. f_equal. lia.
    + rewrite digits2_iter_xO, Pos2Z.inj_add. fold d. lia.
    + lia.
Qed.

Lemma digits2_le_53 (p : positive) :
  Z.pos p < 2 ^ 53 -> Z.pos (digits2_pos p) <= 53.
Proof.
  intros H. pose proof (digits2_bounds p) as [Hlo _].
  assert (Hlt : 2 ^ (Z.pos (digits2_pos p) - 1) < 2 ^ 53) by lia.
  apply Z.pow_lt_mono_r_iff in Hlt; lia.
Qed.

(** Two positive integers below 2^53 compare, as Numbers of one sign,
    the way they compare as integers. *)
Lemma compare_round_pos (a b : positive) :
  Z.pos a < 2 ^ 53 -> Z.pos b < 2 ^ 53 ->
  SFcompare (binary_round prec emax false a 0) (binary_round prec emax false b 0)
  = Some (Z.pos a ?= Z.pos b) /\
  SFcompare (binary_round prec emax true a 0) (binary_round prec emax true b 0)
  = Some (CompOpp (Z.pos a ?= Z.pos b)).
Proof.
  intros Ha Hb.
  pose proof (digits2_le_53 a Ha) as Hda. pose proof (digits2_le_53 b Hb) as Hdb.
  destruct (binary_round_exact false a Hda) as (ma & -> & Hma).
  destruct (binary_round_exact false b Hdb) as (mb & -> & Hmb).
  destruct (binary_round_exact true a Hda) as (ma' & -> & Hma').
  destruct (binary_round_exact true b Hdb) as (mb' & -> & Hmb').
  pose proof (digits2_bounds a) as [Hla Hua].
  pose proof (digits2_bounds b) as [Hlb Hub].
  set (da := Z.pos (digits2_pos a)) in *. set (db := Z.pos (digits2_pos b)) in *.
  cbn [SFcompare].
  destruct (Z.compare_spec (da - 53) (db - 53)) as [He|He|He].
  - assert (Hd : da = db) by lia. rewrite Hd in *.
    assert (Hp : 0 < 2 ^ (53 - db)) by (apply Z.pow_pos_nonneg; lia).
    assert (Hc : (Z.pos ma ?= Z.pos mb) = (Z.pos a ?= Z.pos b)).
    { rewrite Hma, Hmb. symmetry. apply Zmult_compare_compat_r. lia. }
    assert (Hc' : (Z.pos ma' ?= Z.pos mb') = (Z.pos a ?= Z.pos b)).
    { rewrite Hma', Hmb'. symmetry. apply Zmult_compare_compat_r. lia. }
    change (Pos.compare_cont Eq ma mb) with (Z.pos ma ?= Z.pos mb).
    change (Pos.compare_cont Eq ma' mb') with (Z.pos ma' ?= Z.pos mb').
    rewrite Hc, Hc'. split; reflexivity.
  - assert (Hab : Z.pos a < Z.pos b).
    { apply Z.lt_le_trans with (2 ^ da); [assumption|].
      apply Z.le_trans with (2 ^ (db - 1)); [|assumption].
      apply Z.pow_le_mono_r; lia. }
    replace (Z.pos a ?= Z.pos b) with Lt
      by (symmetry; apply Z.compare_lt_iff; exact Hab).
    split; reflexivity.
  - assert (Hab : Z.pos b < Z.pos a).
    { apply Z.lt_le_trans with (2 ^ db); [assumption|].
      apply Z.le_trans with (2 ^ (da - 1)); [|assumption].
      apply Z.pow_le_mono_r; lia. }
    replace (Z.pos a ?= Z.pos b) with Gt
      by (symmetry; apply Z.compare_gt_iff; exact Hab).
    split; reflexivity.
Qed.

(** Integers of magnitude below 2^53 compare as Numbers the way they
    compare as integers. *)
Lemma SFcompare_of_Z (a b : Z) :
  Z.abs a < 2 ^ 53 -> Z.abs b < 2 ^ 53 ->
  SFcompare (of_Z a) (of_Z b) = Some (a ?= b).
Proof.
  intros Ha Hb. unfold of_Z, binary_normalize.
  destruct a as [|a|a], b as [|b|b]; try reflexivity.
  - destruct (binary_round_exact false b (digits2_le_53 b Hb)) as (m & -> & _).
    reflexivity.
  - destruct (binary_round_exact true b (digits2_le_53 b Hb)) as (m & -> & _).
    reflexivity.
  - destruct (binary_round_exact false a (digits2_le_53 a Ha)) as (m & -> & _).
    reflexivity.
  - apply compare_round_pos; assumption.
  - destruct (binary_round_exact false a (digits2_le_53 a Ha)) as (m & -> & _).
    destruct (binary_round_exact true b (digits2_le_53 b Hb)) as (m' & -> & _).
    reflexivity.
  - destruct (binary_round_exact true a (digits2_le_53 a Ha)) as (m & -> & _).
    reflexivity.
  - destruct (binary_round_exact true a (digits2_le_53 a Ha)) as (m & -> & _).
    destruct (binary_round_exact false b (digits2_le_53 b Hb)) as (m' & -> & _).
    reflexivity.
  - destruct (compare_round_pos a b Ha Hb) as [_ ->].
    change (Z.neg a ?= Z.neg b) with (CompOpp (Z.pos a ?= Z.pos b)).
    reflexivity.
Qed.

Lemma lt_of_Z (a b : Z) :
  Z.abs a < 2 ^ 53 -> Z.abs b < 2 ^ 53 -> lt (of_Z a) (of_Z b) = (a <? b).
Proof.
  intros Ha Hb. unfold lt, SFltb, Z.ltb. rewrite SFcompare_of_Z by assumption.
  destruct (a ?= b); reflexivity.
Qed.

Lemma le_of_Z (a b : Z) :
  Z.abs a < 2 ^ 53 -> Z.abs b < 2 ^ 53 -> le (of_Z a) (of_Z b) = (a <=? b).
Proof.
  intros Ha Hb. unfold le, SFleb, Z.leb. rewrite SFcompare_of_Z by assumption.
  destruct (a ?= b); reflexivity.
Qed.

(** * Reading digit text *)

Ltac each_char c := destruct c as [[] [] [] [] [] [] [] []].

Lemma digit_value_10 (c : ascii) :
  digit_value 10 c = if is_digit c then Some (code c - 48) else None.
Proof. each_char c; reflexivity. Qed.

Lemma digit_not_space (c : ascii) : is_digit c = true -> is_space c = false.
Proof. each_char c; cbn; intros H; try reflexivity; discriminate H. Qed.

Lemma digit_code (c : ascii) : is_digit c = true -> 0 <= code c - 48 <= 9.
Proof.
  unfold is_digit. intros H. apply andb_prop in H as [H1 H2].
  apply Z.leb_le in H1, H2. lia.
Qed.

Lemma strip_sign_digit (c : ascii) (s : string) :
  is_digit c = true -> strip_sign (String c s) = (false, String c s).
Proof. each_char c; cbn; intros H; try reflexivity; discriminate H. Qed.

Lemma strip_prefix_plain (c : ascii) (s : string) :
  is_digit c = true ->
  match s with
  | String c' _ => negb (code c' =? 120) && negb (code c' =? 88)
  | EmptyString => true
  end = true ->
  strip_prefix (String c s) = (10, String c s).
Proof.
  intros Hc Hs. each_char c; try discriminate Hc; try reflexivity.
  destruct s as [|c' s']; [reflexivity|].
  each_char c'; try discriminate Hs; reflexivity.
Qed.

(** After a first digit it makes no difference whether the accumulator
    started empty or at 0. *)
Lemma read_digits_start (c : ascii) (s : string) :
  is_digit c = true ->
  read_digits 10 (String c s) None = read_digits 10 (String c s) (Some 0).
Proof.
  intros H. cbn [read_digits]. rewrite digit_value_10, H. reflexivity.
Qed.

Lemma read_digits_some (s : string) :
  forall a, exists m, read_digits 10 s (Some a) = Some m.
Proof.
  induction s as [|c s IH]; intros a; cbn [read_digits].
  - exists a. reflexivity.
  - destruct (digit_value 10 c); [apply IH|exists a; reflexivity].
Qed.

Lemma read_digits_nonneg (s : string) :
  forall a m, 0 <= a -> read_digits 10 s (Some a) = Some m -> 0 <= m.
Proof.
  induction s as [|c s IH]; intros a m Ha; cbn [read_digits].
  - intros [= <-]. exact Ha.
  - rewrite digit_value_10. destruct (is_digit c) eqn:Hc.
    + apply IH. pose proof (digit_code c Hc). lia.
    + intros [= <-]. exact Ha.
Qed.

(** Text that goes on after the digits with something that is not a
    digit is read as the digits alone. *)
Lemma read_digits_app (ds t : string) :
  all_chars is_digit ds = true -> stops_number t = true ->
  forall acc, read_digits 10 (ds ++ t) acc = read_digits 10 ds acc.
Proof.
  intros Hd Ht. induction ds as [|c ds IH]; intros acc.
  - change ("" ++ t) with t. destruct t as [|c t]; [reflexivity|].
    cbn [read_digits]. rewrite digit_value_10.
    cbn [stops_number] in Ht. destruct (is_digit c); [discriminate Ht|reflexivity].
  - cbn [all_chars] in Hd. apply andb_prop in Hd as [Hc Hd].
    change (String c ds ++ t) with (String c (ds ++ t)).
    cbn [read_digits]. rewrite digit_value_10, Hc. apply IH, Hd.
Qed.

(** Non-empty digit text is read in radix 10, without sign. *)
Lemma scan_digits (c : ascii) (ds t : string) :
  all_chars is_digit (String c ds) = true -> stops_number t = true ->
  scan (String c ds ++ t) =
  match read_digits 10 (String c ds) (Some 0) with
  | Some m => Some (false, m)
  | None => None
  end.
Proof.
  intros Hd Ht. pose proof Hd as Hd'.
  cbn [all_chars] in Hd. apply andb_prop in Hd as [Hc Hds].
  unfold scan. change (String c ds ++ t) with (String c (ds ++ t)).
  cbn [skip_space].
  rewrite (digit_not_space c Hc), strip_sign_digit by exact Hc.
  rewrite strip_prefix_plain.
  - change (String c (ds ++ t)) with (String c ds ++ t).
    rewrite read_digits_app, read_digits_start by assumption. reflexivity.
  - exact Hc.
  - destruct ds as [|c' ds'].
    + change ("" ++ t) with t. destruct t as [|c' t']; [reflexivity|].
      cbn [stops_number] in Ht. apply andb_prop in Ht as [Ht H88].
      apply andb_prop in Ht as [_ H120]. rewrite H120, H88. reflexivity.
    + change (String c' ds' ++ t) with (String c' (ds' ++ t)).
      cbn [all_chars] in Hds.
      apply andb_prop in Hds as [Hc' _]. revert Hc'.
      each_char c'; cbn; intros H; try reflexivity; discriminate H.
Qed.

Lemma append_empty (s : string) : s ++ "" = s.
Proof.
  induction s as [|c s IH]; [reflexivity|].
  change (String c s ++ "") with (String c (s ++ "")). rewrite IH. reflexivity.
Qed.

(** * The digits written by [decimal] *)

Lemma digit_char (d : Z) :
  0 <= d <= 9 ->
  code (ascii_of_N (Z.to_N (48 + d))) = 48 + d /\
  is_digit (ascii_of_N (Z.to_N (48 + d))) = true.
Proof.
  intros H.
  assert (Hb : (code (ascii_of_N (Z.to_N (48 + d))) =? 48 + d) &&
               is_digit (ascii_of_N (Z.to_N (48 + d))) = true).
  { by_table (fun d => (code (ascii_of_N (Z.to_N (48 + d))) =? 48 + d) &&
                       is_digit (ascii_of_N (Z.to_N (48 + d)))) 10%nat. }
  apply andb_prop in Hb as [H1 H2]. apply Z.eqb_eq in H1. split; assumption.
Qed.

Lemma digits_acc_digits (fuel : nat) :
  forall n acc, 0 <= n -> all_chars is_digit acc = true ->
  all_chars is_digit (digits_acc fuel n acc) = true.
Proof.
  induction fuel as [|f IH]; intros n acc Hn Ha; cbn [digits_acc];
    [exact Ha|].
  assert (Hd : 0 <= n mod 10 <= 9) by (pose proof (Z.mod_pos_bound n 10); lia).
  destruct (digit_char _ Hd) as [_ Hc].
  destruct (n <? 10).
  - cbn [all_chars]. rewrite Hc, Ha. reflexivity.
  - apply IH.
    + apply Z.div_pos; lia.
    + cbn [all_chars]. rewrite Hc, Ha. reflexivity.
Qed.

Lemma digits_acc_nonempty (fuel : nat) :
  forall n c acc, exists c' s, digits_acc fuel n (String c acc) = String c' s.
Proof.
  induction fuel as [|f IH]; intros n c acc; cbn [digits_acc].
  - eexists _, _. reflexivity.
  - destruct (n <? 10); [eexists _, _; reflexivity|apply IH].
Qed.

Lemma read_digits_acc (fuel : nat) :
  forall n acc, 0 <= n < 10 ^ Z.of_nat fuel ->
  read_digits 10 (digits_acc fuel n acc) (Some 0) =
  read_digits 10 acc (Some n).
Proof.
  induction fuel as [|f IH]; intros n acc Hn; cbn [digits_acc].
  - replace n with 0 by (cbn in Hn; lia). reflexivity.
  - assert (Hd : 0 <= n mod 10 <= 9) by (pose proof (Z.mod_pos_bound n 10); lia).
    destruct (digit_char _ Hd) as [Hcode Hc].
    assert (Hstep : forall a,
              read_digits 10 (String (ascii_of_N (Z.to_N (48 + n mod 10))) acc) (Some a)
              = read_digits 10 acc (Some (a * 10 + n mod 10))).
    { intros a. cbn [read_digits]. rewrite digit_value_10, Hc, Hcode.
      do 2 f_equal. lia. }
    destruct (Z.ltb_spec n 10) as [Hlt|Hge].
    + rewrite Hstep. do 2 f_equal. rewrite Z.mod_small by lia. lia.
    + rewrite IH, Hstep.
      * do 2 f_equal. pose proof (Z.div_mod n 10). lia.
      * rewrite Nat2Z.inj_succ, Z.pow_succ_r in Hn by lia.
        split; [apply Z.div_pos; lia|].
        apply Z.div_lt_upper_bound; lia.
Qed.

Lemma decimal_fuel (n : Z) : 0 <= n -> n < 10 ^ Z.of_nat (S (Z.to_nat (Z.log2 n))).
Proof.
  intros Hn. destruct (Z.eq_dec n 0) as [->|H0]; [cbn; lia|].
  rewrite Nat2Z.inj_succ, Z2Nat.id by apply Z.log2_nonneg.
  apply Z.lt_le_trans with (2 ^ Z.succ (Z.log2 n)).
  - apply Z.log2_spec. lia.
  - apply Z.pow_le_mono_l. lia.
Qed.

Lemma decimal_shape (n : Z) :
  0 <= n ->
  exists c ds, decimal n = String c ds /\
    all_chars is_digit (String c ds) = true /\
    read_digits 10 (String c ds) (Some 0) = Some n.
Proof.
  intros Hn. unfold decimal.
  pose proof (digits_acc_digits (S (Z.to_nat (Z.log2 n))) n "" Hn eq_refl) as Hd.
  pose proof (read_digits_acc _ n "" (conj Hn (decimal_fuel n Hn))) as Hr.
  cbn [digits_acc] in *.
  destruct (n <? 10).
  - eexists _, _. split; [reflexivity|]. split; assumption.
  - destruct (digits_acc_nonempty (Z.to_nat (Z.log2 n)) (n / 10)
                (ascii_of_N (Z.to_N (48 + n mod 10))) "") as (c & ds & E).
    rewrite E in *. exists c, ds. split; [reflexivity|]. split; assumption.
Qed.

(** * padNumber *)

Lemma zeros_shift (k : nat) (s : string) :
  zeros k ++ String "0" s = String "0" (zeros k ++ s).
Proof.
  induction k as [|k IH]; [reflexivity|].
  cbn [zeros]. change (String "0" (zeros k) ++ String "0" s)
    with (String "0" (zeros k ++ String "0" s)).
  rewrite IH. reflexivity.
Qed.

Lemma length_zeros_app (k : nat) (s : string) :
  String.length (zeros k ++ s) = (k + String.length s)%nat.
Proof.
  induction k as [|k IH]; [reflexivity|].
  cbn [zeros]. change (String "0" (zeros k) ++ s) with (String "0" (zeros k ++ s)).
  cbn [String.length]. rewrite IH. reflexivity.
Qed.

Lemma pad_loop_zeros (fuel : nat) :
  forall (s : string) (n : Z),
    Z.of_nat (String.length s) < 2 ^ 53 -> Z.abs n < 2 ^ 53 ->
    (Z.to_nat (n - Z.of_nat (String.length s)) <= fuel)%nat ->
    pad_loop fuel s (of_Z n) =
    Some (zeros (Z.to_nat (n - Z.of_nat (String.length s))) ++ s).
Proof.
  induction fuel as [|f IH]; intros s n Hs Hn Hf.
  - cbn [pad_loop]. rewrite lt_of_Z by lia.
    destruct (Z.ltb_spec (Z.of_nat (String.length s)) n) as [H|H]; [lia|].
    replace (Z.to_nat (n - Z.of_nat (String.length s))) with 0%nat by lia.
    reflexivity.
  - cbn [pad_loop]. rewrite lt_of_Z by lia.
    destruct (Z.ltb_spec (Z.of_nat (String.length s)) n) as [H|H].
    + change ("0" ++ s) with (String "0" s). rewrite IH.
      * cbn [String.length].
        replace (Z.to_nat (n - Z.of_nat (String.length s)))
          with (S (Z.to_nat (n - Z.of_nat (S (String.length s))))) by lia.
        cbn [zeros]. rewrite zeros_shift. reflexivity.
      * cbn [String.length]. lia.
      * exact Hn.
      * cbn [String.length]. lia.
    + replace (Z.to_nat (n - Z.of_nat (String.length s))) with 0%nat by lia.
      reflexivity.
Qed.

Lemma all_digits_zeros_app (k : nat) (s : string) :
  all_chars is_digit s = true -> all_chars is_digit (zeros k ++ s) = true.
Proof.
  intros H. induction k as [|k IH]; [exact H|].
  cbn [zeros]. change (String "0" (zeros k) ++ s) with (String "0" (zeros k ++ s)).
  cbn [all_chars]. rewrite IH. reflexivity.
Qed.

Lemma read_digits_zeros (k : nat) (s : string) :
  read_digits 10 (zeros k ++ s) (Some 0) = read_digits 10 s (Some 0).
Proof.
  induction k as [|k IH]; [reflexivity|].
  cbn [zeros]. change (String "0" (zeros k) ++ s) with (String "0" (zeros k ++ s)).
  cbn [read_digits]. rewrite digit_value_10. cbn. exact IH.
Qed.

(** Leading zeros do not change what is read. *)
Lemma int_value_zeros_decimal (k : nat) (m : Z) :
  0 <= m -> int_value (zeros k ++ decimal m) = m.
Proof.
  intros Hm. destruct (decimal_shape m Hm) as (c & ds & E & Hd & Hr).
  rewrite E.
  assert (Hall : all_chars is_digit (zeros k ++ String c ds) = true)
    by (apply all_digits_zeros_app; exact Hd).
  assert (Hread : read_digits 10 (zeros k ++ String c ds) (Some 0) = Some m)
    by (rewrite read_digits_zeros; exact Hr).
  unfold int_value. rewrite <- (append_empty (zeros k ++ String c ds)).
  destruct (zeros k ++ String c ds) as [|c' s'] eqn:Ez.
  - destruct k; discriminate Ez.
  - rewrite scan_digits, Hread by (try assumption; reflexivity). reflexivity.
Qed.

(** Zeros in front of a minus sign are read as 0. *)
Lemma int_value_zeros_minus (k : nat) (t : string) :
  int_value (zeros (S k) ++ String "-" t) = 0.
Proof.
  unfold int_value. cbn [zeros].
  change (String "0" (zeros k) ++ String "-" t)
    with (String "0" (zeros k) ++ String "-" t).
  rewrite scan_digits.
  - rewrite <- (append_empty (String "0" (zeros k))).
    change (String "0" (zeros k)) with (zeros (S k)).
    rewrite read_digits_zeros. reflexivity.
  - change (String "0" (zeros k)) with (zeros (S k)).
    rewrite <- (append_empty (zeros (S k))). apply all_digits_zeros_app.
    reflexivity.
  - reflexivity.
Qed.

(** * Further properties of calculateRow *)

Lemma has_class_mark_other (c : string) (b : bool) (el : input) :
  c <> "error" -> has_class c (mark b el) = has_class c el.
Proof.
  intros Hc. unfold has_class, mark.
  assert (Hce : String.eqb c "error" = false) by (apply String.eqb_neq; exact Hc).
  destruct b; cbn [class_add class_remove classList].
  - destruct (existsb (String.eqb "error") (classList el)); [reflexivity|].
    rewrite existsb_app. cbn [existsb]. rewrite Hce, !orb_false_r. reflexivity.
  - induction (classList el) as [|t l IH]; [reflexivity|].
    cbn [List.filter existsb].
    destruct (String.eqb "error" t) eqn:E; cbn [negb existsb].
    + apply String.eqb_eq in E. subst t. rewrite Hce, IH. reflexivity.
    + rewrite IH. reflexivity.
Qed.

Lemma NoDup_mark (b : bool) (el : input) :
  List.NoDup (classList el) -> List.NoDup (classList (mark b el)).
Proof.
  intros H. unfold mark. destruct b; cbn [class_add class_remove classList].
  - destruct (existsb (String.eqb "error") (classList el)) eqn:E; [exact H|].
    assert (Hn : ~ List.In "error" (classList el)).
    { intros Hin. assert (Ht : existsb (String.eqb "error") (classList el) = true).
      { apply existsb_exists. exists "error". split; [exact Hin|apply String.eqb_refl]. }
      congruence. }
    clear E. induction H as [|t l Ht Hl IH]; cbn [app].
    + constructor; [intros []|constructor].
    + constructor.
      * rewrite in_app_iff. intros [Hin|[Heq|[]]]; [exact (Ht Hin)|].
        apply Hn. left. symmetry. exact Heq.
      * apply IH. intros Hin. apply Hn. right. exact Hin.
  - apply List.NoDup_filter. exact H.
Qed.

(** X2: a run never edits the text of an input, never touches the
    total-classes input, changes no class other than [error], and keeps
    the class lists free of repeated tokens. *)
Theorem inputs_kept (r : row) :
  map value (inputs (calculate r)) = map value (inputs r) /\
  total_classes (calculate r) = total_classes r /\
  (forall c : string,
     c <> "error" ->
     map (has_class c) (inputs (calculate r)) = map (has_class c) (inputs r)) /\
  (List.Forall (fun el => List.NoDup (classList el)) (inputs r) ->
   List.Forall (fun el => List.NoDup (classList el)) (inputs (calculate r))).
Proof.
  destruct (calculate_inputs r) as (H0 & H1 & H2 & H3 & H4 & H5).
  unfold inputs. rewrite H0, H1, H2, H3, H4, H5. cbn [map].
  split; [rewrite !value_mark; reflexivity|]. split; [reflexivity|]. split.
  - intros c Hc. rewrite !has_class_mark_other by exact Hc. reflexivity.
  - intros H.
    repeat match goal with
    | H : List.Forall _ (_ :: _) |- _ => inversion_clear H
    end.
    repeat constructor; try assumption; apply NoDup_mark; assumption.
Qed.

Lemma inputs_kept_witness :
  "form-control" <> "error" /\
  map (has_class "form-control")
    (inputs (calculate (fresh "50" "40" "75" "55" "8" "7"))) =
  map (has_class "form-control") (inputs (fresh "50" "40" "75" "55" "8" "7")).
Proof.
  assert (Hc : "form-control" <> "error") by discriminate.
  split; [exact Hc|].
  destruct (inputs_kept (fresh "50" "40" "75" "55" "8" "7")) as (_ & _ & H & _).
  exact (H "form-control" Hc).
Defined.



(** X4: what a run shows and marks depends on the six texts alone, not on
    what the row displayed before nor on the classes its inputs carried. *)
Theorem same_texts_same_result (r r' : row) :
  same_texts r r' ->
  outputs (calculate r) = outputs (calculate r') /\
  error_marks (calculate r) = error_marks (calculate r').
Proof.
  intros (E0 & E1 & E2 & E3 & E4 & E5).
  apply outputs_depend_on_values. unfold read_fields.
  rewrite E0, E1, E2, E3, E4, E5. reflexivity.
Qed.

Lemma same_texts_same_result_witness :
  same_texts (fresh "50" "40" "75" "55" "8" "7")
    (calculate (fresh "50" "40" "75" "55" "8" "7")) /\
  error_marks (calculate (fresh "50" "40" "75" "55" "8" "7")) =
  error_marks (calculate (calculate (fresh "50" "40" "75" "55" "8" "7"))).
Proof.
  assert (H : same_texts (fresh "50" "40" "75" "55" "8" "7")
                (calculate (fresh "50" "40" "75" "55" "8" "7")))
    by (repeat split; vm_compute; reflexivity).
  split; [exact H|].
  exact (proj2 (same_texts_same_result _ _ H)).
Defined.

Lemma gt_of_Z (a b : Z) :
  Z.abs a < 2 ^ 53 -> Z.abs b < 2 ^ 53 -> gt (of_Z a) (of_Z b) = (b <? a).
Proof. intros Ha Hb. unfold gt. apply (lt_of_Z b a); assumption. Qed.

(** The five checks on the integers the texts stand for. *)
Lemma checks_in_integers (r : row) :
  Z.abs (int_total r) < 2 ^ 53 -> Z.abs (int_attended r) < 2 ^ 53 ->
  let f := read_fields r in
  bad_attended f = (int_total r <? int_attended r) /\
  bad_i1 f = negb ((0 <=? int_value (value (internal1 r))) &&
                   (int_value (value (internal1 r)) <=? 70)) /\
  bad_i2 f = negb ((0 <=? int_value (value (internal2 r))) &&
                   (int_value (value (internal2 r)) <=? 70)) /\
  bad_assign f = negb ((0 <=? int_value (value (assignment r))) &&
                       (int_value (value (assignment r)) <=? 10)) /\
  bad_sem f = negb ((0 <=? int_value (value (seminar r))) &&
                    (int_value (value (seminar r)) <=? 10)).
Proof.
  intros Ht Ha f. subst f.
  unfold bad_attended, bad_i1, bad_i2, bad_assign, bad_sem.
  rewrite read_fields_int.
  cbn [f_total_classes f_attended f_i1 f_i2 f_assign f_sem].
  rewrite !bad_range_70, !bad_range_10.
  split; [apply gt_of_Z; assumption|]. repeat split.
Qed.

(** X3: after a run each checked input carries the class [error] exactly
    when its own check fails on the current text, whatever marks it
    carried before: attended when it exceeds the total, a mark when it is
    outside its range. *)
Theorem error_marks_in_integers (r : row) :
  Z.abs (int_total r) < 2 ^ 53 -> Z.abs (int_attended r) < 2 ^ 53 ->
  error_marks (calculate r) =
  (int_total r <? int_attended r,
   negb ((0 <=? int_value (value (internal1 r))) &&
         (int_value (value (internal1 r)) <=? 70)),
   negb ((0 <=? int_value (value (internal2 r))) &&
         (int_value (value (internal2 r)) <=? 70)),
   negb ((0 <=? int_value (value (assignment r))) &&
         (int_value (value (assignment r)) <=? 10)),
   negb ((0 <=? int_value (value (seminar r))) &&
         (int_value (value (seminar r)) <=? 10))).
Proof.
  intros Ht Ha.
  destruct (checks_in_integers r Ht Ha) as (C1 & C2 & C3 & C4 & C5).
  destruct (calculate_inputs r) as (_ & H1 & H2 & H3 & H4 & H5).
  unfold error_marks. rewrite H1, H2, H3, H4, H5, !has_class_mark.
  rewrite C1, C2, C3, C4, C5. reflexivity.
Qed.

Lemma error_marks_in_integers_witness :
  Z.abs (int_total (fresh "40" "41" "75" "55" "8" "7")) < 2 ^ 53 /\
  error_marks (calculate (calculate (fresh "40" "41" "75" "55" "8" "7"))) =
  (true, true, false, false, false).
Proof.
  split; [vm_compute; reflexivity|].
  rewrite (error_marks_in_integers
             (calculate (fresh "40" "41" "75" "55" "8" "7")))
    by (vm_compute; reflexivity).
  vm_compute. reflexivity.
Defined.

(** The row is free of errors exactly when the integers satisfy the five
    checks. *)
Lemma hasError_in_integers (r : row) :
  Z.abs (int_total r) < 2 ^ 53 -> Z.abs (int_attended r) < 2 ^ 53 ->
  (hasError (read_fields r) = false <->
   int_attended r <= int_total r /\
   0 <= int_value (value (internal1 r)) <= 70 /\
   0 <= int_value (value (internal2 r)) <= 70 /\
   0 <= int_value (value (assignment r)) <= 10 /\
   0 <= int_value (value (seminar r)) <= 10).
Proof.
  intros Ht Ha.
  destruct (checks_in_integers r Ht Ha) as (C1 & C2 & C3 & C4 & C5).
  unfold hasError. rewrite C1, C2, C3, C4, C5.
  rewrite !orb_false_iff, !negb_false_iff, !andb_true_iff, !Z.leb_le, Z.ltb_ge.
  tauto.
Qed.

(** X7: a row passes validation exactly when attended does not exceed
    the total and the four marks are in their ranges; neither class
    count has a lower bound, so negative counts pass. *)
Theorem validation_in_integers (r : row) :
  Z.abs (int_total r) < 2 ^ 53 -> Z.abs (int_attended r) < 2 ^ 53 ->
  (hasError (read_fields r) = false <->
   int_attended r <= int_total r /\
   0 <= int_value (value (internal1 r)) <= 70 /\
   0 <= int_value (value (internal2 r)) <= 70 /\
   0 <= int_value (value (assignment r)) <= 10 /\
   0 <= int_value (value (seminar r)) <= 10).
Proof. intros Ht Ha. exact (hasError_in_integers r Ht Ha). Qed.

Lemma validation_in_integers_witness :
  Z.abs (int_total (fresh "-3" "-7" "0" "0" "0" "0")) < 2 ^ 53 /\
  int_attended (fresh "-3" "-7" "0" "0" "0" "0") <=
  int_total (fresh "-3" "-7" "0" "0" "0" "0") /\
  hasError (read_fields (fresh "-3" "-7" "0" "0" "0" "0")) = false.
Proof.
  split; [vm_compute; reflexivity|].
  split; [vm_compute; discriminate|].
  apply validation_in_integers; vm_compute; repeat split; discriminate.
Defined.

Lemma decimal_not_ERR (t : Z) :
  0 <= t <= 160 -> String.eqb (decimal t) "ERR" = false.
Proof.
  intros H. apply negb_true_iff.
  by_table (fun t => negb (String.eqb (decimal t) "ERR")) 161%nat.
Qed.

Lemma decimal_zero (fin : Z) :
  0 <= fin <= 160 -> String.eqb (decimal fin) "0" = (fin =? 0).
Proof.
  intros H. apply Bool.eqb_prop.
  by_table (fun fin => Bool.eqb (String.eqb (decimal fin) "0") (fin =? 0)) 161%nat.
Qed.

Lemma hasError_valid (r : row) : hasError (read_fields r) = false -> valid_row r.
Proof. apply valid_row_hasError. Qed.

(** X5: the row reads ERR in its total and final displays, and the
    placeholder in its grade and risk displays, exactly when some check
    fails; a valid row never shows them. *)
Theorem error_state_iff (r : row) :
  (total_text (calculate r) = "ERR" <-> hasError (read_fields r) = true) /\
  (final_text (calculate r) = "ERR" <-> hasError (read_fields r) = true) /\
  (grade_html (calculate r) = "-" <-> hasError (read_fields r) = true) /\
  (risk_html (calculate r) = "-" <-> hasError (read_fields r) = true).
Proof.
  destruct (hasError (read_fields r)) eqn:He.
  - pose proof (outputs_error r He) as Ho. unfold outputs in Ho.
    injection Ho as -> -> _ -> ->. repeat split; reflexivity.
  - pose proof (hasError_valid r He) as Hv.
    pose proof (outputs_valid r Hv) as Ho. unfold outputs in Ho. cbv zeta in Ho.
    injection Ho as -> -> _ -> ->.
    destruct (total_valid r Hv) as [_ Ht].
    destruct (final_valid r Hv) as [_ Hf].
    pose proof (decimal_not_ERR _ Ht) as Dt.
    assert (Df : String.eqb (decimal (spec_final (spec_total r))) "ERR" = false)
      by (apply decimal_not_ERR; lia).
    apply String.eqb_neq in Dt, Df.
    repeat split; intros H; try discriminate H; contradiction.
Qed.

(** X6: the hidden final value is 0 both for a row that fails validation
    and for a valid row whose marks total at most 3, and for no other. *)
Theorem hidden_zero_iff (r : row) :
  final_calc (calculate r) = "0" <->
  hasError (read_fields r) = true \/
  (hasError (read_fields r) = false /\ spec_total r <= 3).
Proof.
  destruct (hasError (read_fields r)) eqn:He.
  - pose proof (outputs_error r He) as Ho. unfold outputs in Ho.
    injection Ho as _ _ -> _ _. split; [left|]; reflexivity.
  - pose proof (hasError_valid r He) as Hv.
    pose proof (outputs_valid r Hv) as Ho. unfold outputs in Ho. cbv zeta in Ho.
    injection Ho as _ _ -> _ _.
    destruct (total_valid r Hv) as [_ Ht].
    destruct (final_valid r Hv) as [_ Hf].
    rewrite <- String.eqb_eq, decimal_zero, Z.eqb_eq by lia.
    unfold spec_final, round_div in *.
    split.
    + intros H. right. split; [reflexivity|].
      destruct (Z.le_gt_cases (spec_total r) 3) as [Hle|Hgt]; [exact Hle|].
      exfalso.
      assert (1 <= (2 * (20 * spec_total r) + 160) / (2 * 160))
        by (apply Z.div_le_lower_bound; lia).
      lia.
    + intros [H|[_ H]]; [discriminate H|].
      apply Z.div_small. lia.
Qed.

Lemma error_state_iff_witness :
  hasError (read_fields (fresh "40" "41" "60" "55" "8" "7")) = true /\
  total_text (calculate (fresh "40" "41" "60" "55" "8" "7")) = "ERR".
Proof.
  assert (H : hasError (read_fields (fresh "40" "41" "60" "55" "8" "7")) = true)
    by (vm_compute; reflexivity).
  split; [exact H|].
  exact (proj2 (proj1 (error_state_iff _)) H).
Defined.

Lemma hidden_zero_iff_witness :
  hasError (read_fields (fresh "40" "40" "2" "1" "0" "0")) = false /\
  spec_total (fresh "40" "40" "2" "1" "0" "0") <= 3 /\
  final_calc (calculate (fresh "40" "40" "2" "1" "0" "0")) = "0".
Proof.
  assert (H : hasError (read_fields (fresh "40" "40" "2" "1" "0" "0")) = false)
    by (vm_compute; reflexivity).
  assert (H3 : spec_total (fresh "40" "40" "2" "1" "0" "0") <= 3)
    by (vm_compute; discriminate).
  split; [exact H|]. split; [exact H3|].
  exact (proj2 (hidden_zero_iff _) (or_intror (conj H H3))).
Defined.

Lemma grade_by_total_final (t : Z) :
  0 <= t <= 160 -> spec_grade (spec_final t) = grade_by_total t.
Proof.
  intros H. apply String.eqb_eq.
  by_table (fun t => String.eqb (spec_grade (spec_final t)) (grade_by_total t))
    161%nat.
Qed.

(** X8: on a valid row the grade is decided by the total of the four
    marks: A+ from 140, A from 116, B from 92, C from 76, D below. *)
Theorem grade_cutoffs (r : row) :
  valid_row r ->
  grade_html (calculate r) = grade_badge (grade_by_total (spec_total r)).
Proof.
  intros Hv. pose proof (outputs_valid r Hv) as Ho.
  unfold outputs in Ho. cbv zeta in Ho. injection Ho as _ _ _ -> _.
  destruct (total_valid r Hv) as [_ Ht].
  rewrite grade_by_total_final by exact Ht. reflexivity.
Qed.

Lemma grade_cutoffs_witness :
  valid_row (fresh "50" "40" "70" "60" "5" "5") /\
  grade_html (calculate (fresh "50" "40" "70" "60" "5" "5")) = grade_badge "A+".
Proof.
  assert (Hv : valid_row (fresh "50" "40" "70" "60" "5" "5"))
    by valid_by_evaluation.
  split; [exact Hv|]. rewrite (grade_cutoffs _ Hv). reflexivity.
Defined.

(** X11: grade and risk of a valid row agree: a row graded D is Critical,
    a row rated Best is graded A+, Average goes with B or C, and Safe
    with A or A+. *)
Theorem grade_risk_agree (r : row) :
  valid_row r ->
  exists g k : string,
    grade_html (calculate r) = grade_badge g /\
    risk_html (calculate r) = risk_badge k /\
    (g = "D" -> k = "Critical") /\
    (k = "Best" -> g = "A+") /\
    (k = "Average" -> g = "B" \/ g = "C") /\
    (k = "Safe" -> g = "A" \/ g = "A+").
Proof.
  intros Hv. pose proof (outputs_valid r Hv) as Ho.
  unfold outputs in Ho. cbv zeta in Ho. injection Ho as _ _ _ Hg Hk.
  eexists _, _. split; [exact Hg|]. split; [exact Hk|].
  destruct (final_valid r Hv) as [_ Hf].
  set (fin := spec_final (spec_total r)) in *.
  unfold spec_grade, spec_risk.
  destruct (lt (attendance_percent (read_fields r)) (of_Z 70));
    destruct (Z.leb_spec 18 fin), (Z.leb_spec 15 fin), (Z.leb_spec 12 fin),
      (Z.leb_spec 10 fin), (Z.ltb_spec fin 10), (Z.ltb_spec fin 15),
      (Z.eqb_spec fin 20); try lia; cbn [orb];
    repeat split; intros Hx; try discriminate Hx; auto.
Qed.

Lemma grade_risk_agree_witness :
  valid_row (fresh "40" "40" "20" "20" "0" "0") /\
  exists g k : string,
    grade_html (calculate (fresh "40" "40" "20" "20" "0" "0")) = grade_badge g /\
    risk_html (calculate (fresh "40" "40" "20" "20" "0" "0")) = risk_badge k /\
    (g = "D" -> k = "Critical").
Proof.
  assert (Hv : valid_row (fresh "40" "40" "20" "20" "0" "0"))
    by valid_by_evaluation.
  split; [exact Hv|].
  destruct (grade_risk_agree _ Hv) as (g & k & Hg & Hk & H & _).
  exists g, k. repeat split; assumption.
Defined.

(** X12: on valid rows the four marks count only through their sum: two
    rows with the same class counts and the same total of marks show the
    same total, final, grade and risk. *)
Theorem marks_count_by_sum (r r' : row) :
  valid_row r -> valid_row r' ->
  value (total_classes r) = value (total_classes r') ->
  value (attended_classes r) = value (attended_classes r') ->
  spec_total r = spec_total r' ->
  outputs (calculate r) = outputs (calculate r').
Proof.
  intros Hv Hv' Et Ea Es.
  rewrite (outputs_valid r Hv), (outputs_valid r' Hv'). cbv zeta.
  assert (Hatt : attendance_percent (read_fields r) =
                 attendance_percent (read_fields r')).
  { unfold attendance_percent, read_fields.
    cbn [f_total_classes f_attended]. rewrite Et, Ea. reflexivity. }
  rewrite Es, Hatt. reflexivity.
Qed.

Lemma marks_count_by_sum_witness :
  valid_row (fresh "50" "40" "60" "55" "8" "7") /\
  valid_row (fresh "50" "40" "55" "60" "10" "5") /\
  outputs (calculate (fresh "50" "40" "60" "55" "8" "7")) =
  outputs (calculate (fresh "50" "40" "55" "60" "10" "5")).
Proof.
  assert (Hv : valid_row (fresh "50" "40" "60" "55" "8" "7"))
    by valid_by_evaluation.
  assert (Hv' : valid_row (fresh "50" "40" "55" "60" "10" "5"))
    by valid_by_evaluation.
  split; [exact Hv|]. split; [exact Hv'|].
  apply (marks_count_by_sum _ _ Hv Hv'); reflexivity.
Defined.

(** * Reading back what was written *)

(** [parseInt] of a decimal numeral followed by text that does not go on
    with a digit. *)
Lemma int_value_decimal (n : Z) (t : string) :
  0 <= n -> stops_number t = true -> scan (decimal n ++ t) = Some (false, n).
Proof.
  intros Hn Ht. destruct (decimal_shape n Hn) as (c & ds & -> & Hd & Hr).
  rewrite scan_digits, Hr by assumption. reflexivity.
Qed.

Lemma read_field_of_scan (s : string) (neg : bool) (m : Z) :
  scan s = Some (neg, m) -> read_field s = of_Z (if neg then - m else m).
Proof.
  intros H. rewrite read_field_int. unfold int_value. rewrite H. reflexivity.
Qed.

(** X13: the numbers a valid row displays read back as themselves: the
    total display and the hidden final value, put through
    [parseInt(...) || 0], give the total and the final mark again. *)
Theorem displayed_numbers_read_back (r : row) :
  valid_row r ->
  read_field (total_text (calculate r)) = total (read_fields r) /\
  read_field (final_text (calculate r)) = final (read_fields r) /\
  read_field (final_calc (calculate r)) = final (read_fields r).
Proof.
  intros Hv. pose proof (outputs_valid r Hv) as Ho.
  unfold outputs in Ho. cbv zeta in Ho. injection Ho as -> -> -> _ _.
  destruct (total_valid r Hv) as [-> Ht].
  destruct (final_valid r Hv) as [-> Hf].
  assert (H : forall n, 0 <= n -> read_field (decimal n) = of_Z n).
  { intros n Hn. rewrite <- (append_empty (decimal n)).
    rewrite (read_field_of_scan _ false n); [reflexivity|].
    apply int_value_decimal; [exact Hn|reflexivity]. }
  rewrite !H by lia. repeat split.
Qed.

Lemma displayed_numbers_read_back_witness :
  valid_row (fresh "50" "40" "60" "55" "8" "7") /\
  read_field (total_text (calculate (fresh "50" "40" "60" "55" "8" "7"))) =
  of_Z 130.
Proof.
  assert (Hv : valid_row (fresh "50" "40" "60" "55" "8" "7"))
    by valid_by_evaluation.
  split; [exact Hv|].
  rewrite (proj1 (displayed_numbers_read_back _ Hv)). vm_compute. reflexivity.
Defined.

(** X14: a field is read up to the first character that is not a digit:
    a decimal numeral followed by a fraction, a unit or any other text
    that does not go on with a digit (or with an x that would make a
    hexadecimal prefix) stands for the numeral alone, and a minus sign in
    front negates it. *)
Theorem trailing_text_ignored (n : Z) (t : string) :
  0 <= n -> stops_number t = true ->
  int_value (decimal n ++ t) = n /\
  read_field (decimal n ++ t) = of_Z n /\
  int_value ("-" ++ decimal n ++ t) = - n /\
  read_field ("-" ++ decimal n ++ t) = of_Z (- n).
Proof.
  intros Hn Ht. pose proof (int_value_decimal n t Hn Ht) as Hs.
  assert (Hm : scan ("-" ++ decimal n ++ t) = Some (true, n)).
  { destruct (decimal_shape n Hn) as (c & ds & E & Hd & Hr).
    rewrite E in *. unfold scan in *.
    change ("-" ++ String c ds ++ t) with (String "-" (String c (ds ++ t))).
    change (String c ds ++ t) with (String c (ds ++ t)) in Hs.
    cbn [all_chars] in Hd. apply andb_prop in Hd as [Hc _].
    cbn [skip_space] in *. rewrite (digit_not_space c Hc) in Hs.
    rewrite strip_sign_digit in Hs by exact Hc.
    change (is_space "-") with false. cbv iota.
    change (strip_sign (String "-" (String c (ds ++ t))))
      with (true, String c (ds ++ t)).
    cbv beta iota in Hs |- *.
    destruct (strip_prefix (String c (ds ++ t))) as [radix s2].
    destruct (read_digits radix s2 None) as [m|]; [|discriminate Hs].
    injection Hs as ->. reflexivity. }
  split; [unfold int_value; rewrite Hs; reflexivity|].
  split; [apply (read_field_of_scan _ false n Hs)|].
  split; [unfold int_value; rewrite Hm; reflexivity|].
  apply (read_field_of_scan _ true n Hm).
Qed.

Lemma trailing_text_ignored_witness :
  0 <= 12 /\ stops_number ".9" = true /\ int_value "12.9" = 12 /\
  int_value "-12.9" = -12.
Proof.
  assert (H0 : 0 <= 12) by discriminate.
  assert (Hs : stops_number ".9" = true) by reflexivity.
  split; [exact H0|]. split; [exact Hs|].
  destruct (trailing_text_ignored 12 ".9" H0 Hs) as (H1 & _ & H2 & _).
  split; [exact H1|exact H2].
Defined.

(** * Text typed through the key filter *)

Lemma typed_char (c : ascii) :
  (31 <? code c) && onlyNumbers (keypress c) = is_digit c.
Proof. each_char c; reflexivity. Qed.

Lemma typed_digits (s : string) : typed s = all_chars is_digit s.
Proof.
  unfold typed. induction s as [|c s IH]; [reflexivity|].
  cbn [all_chars]. rewrite typed_char, IH. reflexivity.
Qed.

Lemma digits_nonneg (s : string) :
  all_chars is_digit s = true -> 0 <= int_value s.
Proof.
  intros H. destruct s as [|c ds]; [discriminate|].
  unfold int_value. rewrite <- (append_empty (String c ds)).
  rewrite scan_digits by (try exact H; reflexivity).
  destruct (read_digits_some (String c ds) 0) as [m Hm]. rewrite Hm.
  apply (read_digits_nonneg (String c ds) 0 m); [lia|exact Hm].
Qed.

(** X15: text that can be typed under [onlyNumbers] consists of digits,
    so every field of such a row reads as a non-negative integer, and the
    row passes validation exactly when it is in its declared domain:
    attended at most the total, internals at most 70, assignment and
    seminar at most 10. *)
Theorem typed_row_domain (r : row) :
  List.Forall (fun el => typed (value el) = true) (inputs r) ->
  int_total r < 2 ^ 53 -> int_attended r < 2 ^ 53 ->
  List.Forall (fun el => all_chars is_digit (value el) = true /\
                         0 <= int_value (value el)) (inputs r) /\
  (hasError (read_fields r) = false <->
   int_attended r <= int_total r /\
   int_value (value (internal1 r)) <= 70 /\
   int_value (value (internal2 r)) <= 70 /\
   int_value (value (assignment r)) <= 10 /\
   int_value (value (seminar r)) <= 10).
Proof.
  intros Ht Bt Ba.
  assert (Hall : List.Forall (fun el => all_chars is_digit (value el) = true /\
                                        0 <= int_value (value el)) (inputs r)).
  { eapply List.Forall_impl; [|exact Ht]. cbv beta. intros el Hel.
    rewrite typed_digits in Hel. split; [exact Hel|apply digits_nonneg, Hel]. }
  split; [exact Hall|].
  unfold inputs in Hall.
  repeat match goal with
  | H : List.Forall _ (_ :: _) |- _ => inversion_clear H
  end.
  repeat match goal with H : _ /\ _ |- _ => destruct H end.
  rewrite hasError_in_integers by (unfold int_total, int_attended in *; lia).
  unfold int_total, int_attended. intuition lia.
Qed.

Lemma typed_row_domain_witness :
  List.Forall (fun el => typed (value el) = true)
    (inputs (fresh "50" "40" "60" "55" "8" "7")) /\
  hasError (read_fields (fresh "50" "40" "60" "55" "8" "7")) = false.
Proof.
  assert (H : List.Forall (fun el => typed (value el) = true)
                (inputs (fresh "50" "40" "60" "55" "8" "7")))
    by (repeat constructor).
  split; [exact H|].
  apply (typed_row_domain _ H); vm_compute; repeat split; discriminate.
Defined.

(** * padNumber *)

(** X16: [padNumber] returns, once the loop has had its iterations, the
    text of the number with as many zeros in front as it lacks to [size]
    characters: nothing is cut when the text is already that long, and
    the result is as long as the longer of the two.  With [size] NaN the
    text is returned at once. *)
Theorem padNumber_zeros (fuel : nat) (num : number) (n : Z) :
  Z.of_nat (String.length (to_string num)) < 2 ^ 53 -> Z.abs n < 2 ^ 53 ->
  (Z.to_nat n <= fuel)%nat ->
  exists s,
    padNumber fuel num (of_Z n) = Some s /\
    s = zeros (Z.to_nat (n - Z.of_nat (String.length (to_string num))))
        ++ to_string num /\
    Z.of_nat (String.length s) =
    Z.max n (Z.of_nat (String.length (to_string num))) /\
    padNumber fuel num NaN = Some (to_string num).
Proof.
  intros Hs Hn Hf. unfold padNumber. rewrite append_empty.
  eexists. split; [apply pad_loop_zeros; [assumption|assumption|lia]|].
  split; [reflexivity|]. split.
  - rewrite length_zeros_app. lia.
  - assert (Hnan : forall x, lt x NaN = false) by (intros []; reflexivity).
    destruct fuel; cbn [pad_loop]; rewrite Hnan; reflexivity.
Qed.

Lemma padNumber_zeros_witness :
  Z.abs 3 < 2 ^ 53 /\ padNumber 3 (of_Z 7) (of_Z 3) = Some "007".
Proof.
  assert (H : Z.abs 3 < 2 ^ 53) by reflexivity.
  split; [exact H|].
  destruct (padNumber_zeros 3 (of_Z 7) 3) as (s & Hp & -> & _);
    [reflexivity|exact H|vm_compute; lia|].
  rewrite Hp. vm_compute. reflexivity.
Defined.

Lemma to_string_negative (m : Z) :
  0 <= m <= 160 -> to_string (of_Z (- (m + 1))) = "-" ++ decimal (m + 1).
Proof.
  intros H. apply String.eqb_eq.
  by_table (fun m => String.eqb (to_string (of_Z (- (m + 1))))
                       ("-" ++ decimal (m + 1))) 161%nat.
Qed.

Lemma length_to_string_small (m : Z) :
  -160 <= m <= 160 -> Z.of_nat (String.length (to_string (of_Z m))) <= 4.
Proof.
  intros H. apply Z.leb_le.
  replace m with ((m + 160) - 160) by lia.
  by_table (fun k => Z.of_nat (String.length (to_string (of_Z (k - 160)))) <=? 4)
    321%nat.
Qed.

(** X17: a padded number from 0 to 160 reads back as itself, the leading
    zeros notwithstanding; a padded negative number does not: the zeros
    go in front of the minus sign and the text reads as 0. *)
Theorem padNumber_reads_back (fuel : nat) (m n : Z) :
  -160 <= m <= 160 -> Z.abs n < 2 ^ 53 -> (Z.to_nat n <= fuel)%nat ->
  exists s,
    padNumber fuel (of_Z m) (of_Z n) = Some s /\
    (0 <= m -> int_value s = m) /\
    (m < 0 -> Z.of_nat (String.length (to_string (of_Z m))) < n ->
     int_value s = 0).
Proof.
  intros Hm Hn Hf.
  pose proof (length_to_string_small m Hm) as Hl.
  unfold padNumber. rewrite append_empty.
  eexists. split; [apply pad_loop_zeros; lia|]. split.
  - intros H0. rewrite to_string_small by lia.
    apply int_value_zeros_decimal. exact H0.
  - intros Hneg Hlen.
    replace m with (- ((- m - 1) + 1)) in * by lia.
    rewrite to_string_negative in * by lia.
    set (t := decimal (- m - 1 + 1)) in *.
    change ("-" ++ t) with (String "-" t) in *.
    destruct (Z.to_nat (n - Z.of_nat (String.length (String "-" t))))
      as [|k] eqn:Ek; [lia|].
    apply int_value_zeros_minus.
Qed.

Lemma padNumber_reads_back_witness :
  (-160 <= -5 <= 160) /\ Z.abs 4 < 2 ^ 53 /\
  padNumber 4 (of_Z (-5)) (of_Z 4) = Some "00-5" /\ int_value "00-5" = 0.
Proof.
  assert (Hm : -160 <= -5 <= 160) by lia.
  assert (Hn : Z.abs 4 < 2 ^ 53) by reflexivity.
  split; [exact Hm|]. split; [exact Hn|].
  destruct (padNumber_reads_back 4 (-5) 4 Hm Hn) as (s & Hp & _ & H0);
    [vm_compute; lia|].
  assert (E : padNumber 4 (of_Z (-5)) (of_Z 4) = Some "00-5")
    by (vm_compute; reflexivity).
  split; [exact E|].
  rewrite E in Hp. injection Hp as <-.
  apply H0; vm_compute; reflexivity.
Defined.

(** * Attendance of up to 300 classes *)

Lemma in_upto (n : nat) (z : Z) : 0 <= z < Z.of_nat n -> In z (upto n).
Proof.
  intros Hz. unfold upto. apply in_map_iff. exists (Z.to_nat z).
  split; [lia|]. apply in_seq. lia.
Qed.

Lemma forallb_pairs (P : Z * Z -> bool) (n : nat) :
  forallb P (pairs_upto n) = true ->
  forall a t, 0 <= a <= t -> t < Z.of_nat n -> P (a, t) = true.
Proof.
  intros H a t Ha Ht. rewrite forallb_forall in H. apply H.
  unfold pairs_upto. apply in_flat_map. exists t.
  split; [apply in_upto; lia|].
  apply in_map_iff. exists a. split; [reflexivity|apply in_upto; lia].
Qed.

Lemma attendance_percent_of (r : row) :
  attendance_percent (read_fields r) = percent_of (int_attended r) (int_total r).
Proof. rewrite read_fields_int. reflexivity. Qed.

(** The two facts hold at every attendance of up to 300 classes. *)
Lemma attendance_table : forallb attendance_ok (pairs_upto 301) = true.
Proof. vm_cast_no_check (eq_refl true). Qed.

Lemma percent_below_70 (a t : Z) :
  0 <= a <= t -> t <= 300 ->
  lt (percent_of a t) (of_Z 70) = (t =? 0) || (200 * a <? 139 * t).
Proof.
  intros Ha Ht.
  pose proof (forallb_pairs attendance_ok 301 attendance_table a t Ha) as H.
  unfold attendance_ok in H. cbv zeta in H.
  apply Bool.eqb_prop. apply andb_prop in H as [H _]; [exact H|lia].
Qed.

Lemma final_cutoffs (t : Z) :
  0 <= t <= 160 ->
  (spec_final t <? 10) = (t <? 76) /\ (spec_final t <? 15) = (t <? 116) /\
  (spec_final t =? 20) = (156 <=? t).
Proof.
  intros H.
  assert (Hb : Bool.eqb (spec_final t <? 10) (t <? 76) &&
               Bool.eqb (spec_final t <? 15) (t <? 116) &&
               Bool.eqb (spec_final t =? 20) (156 <=? t) = true).
  { by_table (fun t => Bool.eqb (spec_final t <? 10) (t <? 76) &&
                       Bool.eqb (spec_final t <? 15) (t <? 116) &&
                       Bool.eqb (spec_final t =? 20) (156 <=? t)) 161%nat. }
  apply andb_prop in Hb as [Hb H3]. apply andb_prop in Hb as [H1 H2].
  repeat split; apply Bool.eqb_prop; assumption.
Qed.

(** X9: for a valid row of up to 300 classes held, of which a
    non-negative number was attended, the risk shown is decided by the
    three integers: Critical when no class was held, when attended is
    below 69.5 per cent of the classes held, or when the marks total
    less than 76; otherwise Average below 116 marks, Best from 156, and
    Safe between. *)
Theorem risk_in_integers (r : row) :
  valid_row r -> 0 <= int_attended r <= int_total r -> int_total r <= 300 ->
  risk_html (calculate r) =
  risk_badge (risk_by_counts (int_attended r) (int_total r) (spec_total r)).
Proof.
  intros Hv Ha Ht.
  pose proof (outputs_valid r Hv) as Ho.
  unfold outputs in Ho. cbv zeta in Ho. injection Ho as _ _ _ _ ->.
  destruct (total_valid r Hv) as [_ Hr].
  destruct (final_cutoffs _ Hr) as (C1 & C2 & C3).
  unfold spec_risk, risk_by_counts.
  rewrite attendance_percent_of, percent_below_70, C1, C2, C3 by assumption.
  reflexivity.
Qed.

Lemma risk_in_integers_witness :
  valid_row (fresh "200" "139" "70" "70" "10" "10") /\
  risk_html (calculate (fresh "200" "139" "70" "70" "10" "10")) =
  risk_badge "Best".
Proof.
  assert (Hv : valid_row (fresh "200" "139" "70" "70" "10" "10"))
    by valid_by_evaluation.
  split; [exact Hv|].
  rewrite (risk_in_integers _ Hv).
  - vm_compute. reflexivity.
  - vm_compute. split; discriminate.
  - vm_compute. discriminate.
Defined.

(** X10: for up to 300 classes held, of which between none and all were
    attended, the attendance percentage is an integer from 0 to 100: the
    exact percentage rounded half up, or one less where the binary
    product falls just short of the half (23 of 40 classes give 57). *)
Theorem attendance_percent_range (r : row) :
  0 <= int_attended r <= int_total r -> 0 < int_total r <= 300 ->
  exists k : Z,
    attendance_percent (read_fields r) = of_Z k /\ 0 <= k <= 100 /\
    round_div (100 * int_attended r) (int_total r) - 1 <= k
      <= round_div (100 * int_attended r) (int_total r).
Proof.
  intros Ha Ht. rewrite attendance_percent_of.
  pose proof (forallb_pairs attendance_ok 301 attendance_table _ _ Ha
                ltac:(lia)) as H.
  unfold attendance_ok in H. cbv zeta in H. apply andb_prop in H as [_ H].
  set (e := round_div (100 * int_attended r) (int_total r)) in *.
  assert (He : 0 <= e).
  { unfold e, round_div. apply Z.div_pos; lia. }
  replace (int_total r =? 0) with false in H by (symmetry; apply Z.eqb_neq; lia).
  cbn [orb] in H. apply andb_prop in H as [H H100]. apply Z.leb_le in H100.
  apply orb_prop in H as [H|H].
  - exists e. apply sf_eqb_eq in H. split; [exact H|lia].
  - apply andb_prop in H as [H1 H]. apply Z.leb_le in H1. apply sf_eqb_eq in H.
    exists (e - 1). split; [exact H|lia].
Qed.

Lemma attendance_percent_range_witness :
  (0 <= int_attended (fresh "40" "23" "0" "0" "0" "0")
     <= int_total (fresh "40" "23" "0" "0" "0" "0")) /\
  exists k : Z,
    attendance_percent (read_fields (fresh "40" "23" "0" "0" "0" "0")) = of_Z k /\
    0 <= k <= 100.
Proof.
  assert (H : 0 <= int_attended (fresh "40" "23" "0" "0" "0" "0")
                <= int_total (fresh "40" "23" "0" "0" "0" "0"))
    by (vm_compute; split; discriminate).
  split; [exact H|].
  destruct (attendance_percent_range _ H) as (k & Hk & Hr & _).
  - vm_compute. split; [reflexivity|discriminate].
  - exists k. split; assumption.
Defined.
